(** * The TPM handle of package [tpm]: info values and the Open/Close lifecycle

    A shallow embedding of [src/tpm/info.go] (the info types, and the
    lifecycle manager [TPM] with [New], [WithStore], [Open] and [Close]).

    The handle is a record with the fields of the Go struct.  [Open] and
    [Close] mutate it and call into collaborators that are not part of the
    file ([sync.RWMutex], [storage.TPMStore], [attest.OpenTPM], [open.TPM],
    the [Close] methods of the backends).  Those calls are modelled in a
    small monad over a world made of the handle and the chronological trace
    of collaborator calls; what a collaborator answers is read from an
    environment, as a function of the trace so far. *)

From Stdlib Require Import ZArith List String Ascii Bool.
From Stdlib Require Import DecimalString DecimalZ DecimalPos Lia.
Import ListNotations.

Local Open Scope string_scope.
Local Open Scope list_scope.

(** ** Info values *)

Module Attest.

(** [attest.TPMVersion] is a [uint8]; the library declares
    [TPMVersionAgnostic], [TPMVersion12], [TPMVersion20] with [iota]. *)
Definition TPMVersion := Z.
Definition TPMVersionAgnostic : TPMVersion := 0%Z.
Definition TPMVersion12 : TPMVersion := 1%Z.
Definition TPMVersion20 : TPMVersion := 2%Z.

End Attest.

Module Json.

Definition dquote : ascii := "034"%char.
Definition backslash : ascii := "092"%char.

Definition hex_digit (n : nat) : ascii :=
  nth n (list_ascii_of_string "0123456789abcdef") "0"%char.

(** One byte of a string as [encoding/json] writes it with HTML escaping
    on, which is what [json.Marshal] does.  Bytes from 0x80 on are copied:
    the strings marshalled in this package are ASCII. *)
Definition escape_byte (c : ascii) : list ascii :=
  let n := nat_of_ascii c in
  if (n =? 34)%nat || (n =? 92)%nat then [backslash; c]
  else if (n =? 8)%nat then [backslash; "b"%char]
  else if (n =? 12)%nat then [backslash; "f"%char]
  else if (n =? 10)%nat then [backslash; "n"%char]
  else if (n =? 13)%nat then [backslash; "r"%char]
  else if (n =? 9)%nat then [backslash; "t"%char]
  else if (n <? 32)%nat || (n =? 38)%nat || (n =? 60)%nat || (n =? 62)%nat
    then [backslash; "u"%char; "0"%char; "0"%char;
          hex_digit (n / 16); hex_digit (n mod 16)]
  else [c].

(** [json.Marshal(s)] for a Go string [s]: the quoted, escaped bytes and a
    nil error. *)
Definition Marshal_string (s : string) : list ascii * option string :=
  (dquote :: flat_map escape_byte (list_ascii_of_string s) ++ [dquote], None).

End Json.

Definition Version := Attest.TPMVersion.

(** [func (v Version) String() string] *)
Definition Version_String (v : Version) : string :=
  if (v =? Attest.TPMVersion12)%Z then "TPM 1.2"
  else if (v =? Attest.TPMVersion20)%Z then "TPM 2.0"
  else "unknown".

(** [func (v Version) MarshalJSON() ([]byte, error)] *)
Definition Version_MarshalJSON (v : Version) : list ascii * option string :=
  let s :=
    if (v =? Attest.TPMVersion12)%Z then "1.2"
    else if (v =? Attest.TPMVersion20)%Z then "2.0"
    else "unknown" in
  Json.Marshal_string s.

Module manufacturer.

(** [manufacturer.ID] is a [uint32]. *)
Definition ID := Z.

End manufacturer.

(** [type Manufacturer struct] *)
Record Manufacturer := mkManufacturer {
  ID : manufacturer.ID;
  Name : string;
  ASCII : string;
  Hex : string
}.

Section GetManufacturer.

(** [manufacturer.GetEncodings] and [manufacturer.GetNameByASCII] live in
    the [manufacturer] package; the lookup below is stated for any pair of
    such functions. *)
Variable GetEncodings : manufacturer.ID -> string * string.
Variable GetNameByASCII : string -> string.

(** [func GetManufacturerByID(id manufacturer.ID) Manufacturer] *)
Definition GetManufacturerByID (id : manufacturer.ID) : Manufacturer :=
  let '(ascii, hexa) := GetEncodings id in
  let name := GetNameByASCII ascii in
  {| Name := name;
     ASCII := ascii;
     ID := id;
     Hex := hexa |}.

End GetManufacturer.

(** ** The handle and its collaborators *)

(** A Go [error]: one a collaborator returned, or one wrapped by
    [fmt.Errorf(prefix + ": %w", err)]. *)
Inductive error : Type :=
| ExtError (code : nat)
| Errorf_w (prefix : string) (cause : error).

(** [*simulator.Simulator], by identity. *)
Definition Simulator := nat.

(** [*attest.TPM], by identity.  A value of this type is a live (non-nil)
    session; the nilable field holds an [option]. *)
Definition AttestTPM := nat.

(** A non-nil [io.ReadWriteCloser]: the simulator the handle was built
    with, or a device channel that [open.TPM] returned. *)
Inductive ReadWriteCloser : Type :=
| RwcSimulator (s : Simulator)
| RwcDevice (fd : nat).

(** [attest.OpenConfig], with the two fields this package sets.  The
    command channel is an interface value; only a simulator is ever put
    there. *)
Record OpenConfig := mkOpenConfig {
  TPMVersion : Attest.TPMVersion;
  CommandChannel : option Simulator
}.

(** A non-nil [storage.TPMStore]. *)
Inductive TPMStore : Type :=
| BlackHole
| UserStore (id : nat).

(** [sync.RWMutex]; only [Lock] and [Unlock] are used, so its state is
    whether a writer holds it. *)
Record RWMutex := mkRWMutex { writer : bool }.

Record TPM := mkTPM {
  deviceName : string;
  attestConfig : option OpenConfig;
  attestTPM : option AttestTPM;
  rwc : option ReadWriteCloser;
  lock : RWMutex;
  store : option TPMStore;
  simulator : option Simulator
}.

Definition set_deviceName (n : string) (t : TPM) : TPM :=
  mkTPM n (attestConfig t) (attestTPM t) (rwc t) (lock t) (store t) (simulator t).
Definition set_attestTPM (a : option AttestTPM) (t : TPM) : TPM :=
  mkTPM (deviceName t) (attestConfig t) a (rwc t) (lock t) (store t) (simulator t).
Definition set_rwc (c : option ReadWriteCloser) (t : TPM) : TPM :=
  mkTPM (deviceName t) (attestConfig t) (attestTPM t) c (lock t) (store t) (simulator t).
Definition set_lock (l : RWMutex) (t : TPM) : TPM :=
  mkTPM (deviceName t) (attestConfig t) (attestTPM t) (rwc t) l (store t) (simulator t).
Definition set_store (s : option TPMStore) (t : TPM) : TPM :=
  mkTPM (deviceName t) (attestConfig t) (attestTPM t) (rwc t) (lock t) s (simulator t).

(** Modelled from the spec: [isInternalCall] and [isGoTPMCall] are declared
    in another file of the package; the spec describes them as two
    boolean-valued signals threaded through the call's context, "internal
    call" and "prefer raw transport". *)
Record Context := mkContext {
  isInternalCall : bool;
  isGoTPMCall : bool
}.

(** Calls that leave the handle, in the order they are made. *)
Inductive event : Type :=
| EvLock
| EvUnlock
| EvStoreLoad (st : TPMStore)
| EvAttestOpenTPM (cfg : option OpenConfig)
| EvOpenTPM (name : string)
| EvAttestClose (a : AttestTPM)
| EvRwcClose (c : ReadWriteCloser).

(** What the collaborators answer, given the calls made so far.  The two
    open functions follow the Go convention of the libraries: a nil error
    comes with a non-nil result. *)
Record Env := mkEnv {
  env_Load : nat -> list event -> option error;
  env_attest_OpenTPM : option OpenConfig -> list event -> error + AttestTPM;
  env_open_TPM : string -> list event -> error + nat;
  env_attest_Close : AttestTPM -> list event -> option error;
  env_rwc_Close : ReadWriteCloser -> list event -> option error
}.

(** ** A monad for calls on a handle *)

Record World := mkWorld { tpm : TPM; trace : list event }.

Inductive panic : Type :=
| NilDereference
| UnlockOfUnlockedMutex.

(** A call returns, waits forever on the mutex, or brings the program
    down. *)
Inductive outcome (A : Type) : Type :=
| Returns (a : A)
| Blocks
| Panics (p : panic).
Arguments Returns {A} a.
Arguments Blocks {A}.
Arguments Panics {A} p.

Definition M (A : Type) : Type := World -> outcome A * World.

Definition ret {A} (a : A) : M A := fun w => (Returns a, w).

Definition bind {A B} (m : M A) (k : A -> M B) : M B :=
  fun w =>
    match m w with
    | (Returns a, w') => k a w'
    | (Blocks, w') => (Blocks, w')
    | (Panics p, w') => (Panics p, w')
    end.

Declare Scope tpm_scope.
Delimit Scope tpm_scope with tpm.
Notation "x <- m ;; k" := (bind m (fun x => k))
  (at level 61, m at next level, right associativity) : tpm_scope.
Notation "m ;; k" := (bind m (fun _ => k))
  (at level 61, right associativity) : tpm_scope.
Local Open Scope tpm_scope.

Definition get : M TPM := fun w => (Returns (tpm w), w).
Definition modify (f : TPM -> TPM) : M unit :=
  fun w => (Returns tt, mkWorld (f (tpm w)) (trace w)).
Definition emit (e : event) : M unit :=
  fun w => (Returns tt, mkWorld (tpm w) (trace w ++ [e])).
Definition history : M (list event) := fun w => (Returns (trace w), w).
Definition block {A} : M A := fun w => (Blocks, w).
Definition throw {A} (p : panic) : M A := fun w => (Panics p, w).

(** [t.lock.Lock()]: waits while a writer holds the mutex. *)
Definition lock_Lock : M unit :=
  t <- get ;;
  if writer (lock t) then block
  else emit EvLock ;; modify (set_lock (mkRWMutex true)).

(** [t.lock.Unlock()]: a fatal error when the mutex is not held. *)
Definition lock_Unlock : M unit :=
  t <- get ;;
  emit EvUnlock ;;
  if writer (lock t) then modify (set_lock (mkRWMutex false))
  else throw UnlockOfUnlockedMutex.

Section Lifecycle.

Variable env : Env.

(** Modelled from the spec: [storage.BlackHole] is declared in the
    [storage] package; the spec describes it as a no-op implementation
    guaranteeing no data is read or written, so its [Load] returns nil. *)
Definition TPMStore_Load (st : TPMStore) (h : list event) : option error :=
  match st with
  | BlackHole => None
  | UserStore id => env_Load env id h
  end.

(** [t.store.Load()]; calling a method of a nil interface panics. *)
Definition store_Load (s : option TPMStore) : M (option error) :=
  match s with
  | None => throw NilDereference
  | Some st =>
      h <- history ;;
      emit (EvStoreLoad st) ;;
      ret (TPMStore_Load st h)
  end.

Definition attest_OpenTPM (cfg : option OpenConfig) : M (error + AttestTPM) :=
  h <- history ;;
  emit (EvAttestOpenTPM cfg) ;;
  ret (env_attest_OpenTPM env cfg h).

Definition open_TPM (name : string) : M (error + ReadWriteCloser) :=
  h <- history ;;
  emit (EvOpenTPM name) ;;
  ret (match env_open_TPM env name h with
       | inl e => inl e
       | inr fd => inr (RwcDevice fd)
       end).

Definition attestTPM_Close (a : AttestTPM) : M (option error) :=
  h <- history ;;
  emit (EvAttestClose a) ;;
  ret (env_attest_Close env a h).

Definition rwc_Close (c : ReadWriteCloser) : M (option error) :=
  h <- history ;;
  emit (EvRwcClose c) ;;
  ret (env_rwc_Close env c h).

(** [func (t *TPM) Open(ctx context.Context) error] *)
Definition Open (ctx : Context) : M (option error) :=
  if isInternalCall ctx then ret None
  else
    lock_Lock ;;
    t <- get ;;
    err <- store_Load (store t) ;;
    match err with
    | Some e => ret (Some e)
    | None =>
        match simulator t with
        | Some sim =>
            err <- match attestTPM t with
                   | None =>
                       r <- attest_OpenTPM
                              (Some (mkOpenConfig Attest.TPMVersion20 (Some sim))) ;;
                       match r with
                       | inl e =>
                           ret (Some (Errorf_w "failed opening attest.TPM" e))
                       | inr a => modify (set_attestTPM (Some a)) ;; ret None
                       end
                   | Some _ => ret None
                   end ;;
            match err with
            | Some e => ret (Some e)
            | None => modify (set_rwc (Some (RwcSimulator sim))) ;; ret None
            end
        | None =>
            if isGoTPMCall ctx then
              r <- open_TPM (deviceName t) ;;
              match r with
              | inl e => ret (Some (Errorf_w "failed opening TPM" e))
              | inr c => modify (set_rwc (Some c)) ;; ret None
              end
            else
              r <- attest_OpenTPM (attestConfig t) ;;
              match r with
              | inl e => ret (Some (Errorf_w "failed opening TPM" e))
              | inr a => modify (set_attestTPM (Some a)) ;; ret None
              end
        end
    end.

(** [func (t *TPM) Close(ctx context.Context)] *)
Definition Close (ctx : Context) : M unit :=
  if isInternalCall ctx then ret tt
  else
    t <- get ;;
    match simulator t with
    | Some _ => lock_Unlock
    | None =>
        match attestTPM t with
        | Some a =>
            _ <- attestTPM_Close a ;;
            modify (set_attestTPM None)
        | None => ret tt
        end ;;
        t <- get ;;
        match rwc t with
        | Some c =>
            _ <- rwc_Close c ;;
            modify (set_rwc None)
        | None => ret tt
        end ;;
        lock_Unlock
    end.

(** A caller's sequence of calls on one handle; it stops at the first call
    that does not return. *)
Inductive call : Type :=
| CallOpen (ctx : Context)
| CallClose (ctx : Context).

Definition exec (c : call) : M unit :=
  match c with
  | CallOpen ctx => _ <- Open ctx ;; ret tt
  | CallClose ctx => Close ctx
  end.

Fixpoint run (cs : list call) : M unit :=
  match cs with
  | [] => ret tt
  | c :: cs' => exec c ;; run cs'
  end.

End Lifecycle.

(** ** Construction *)

(** [type NewTPMOption func(t *TPM) error]: the handle after the option ran,
    and the error it returned. *)
Definition NewTPMOption := TPM -> TPM * option error.

Definition WithDeviceName (name : string) : NewTPMOption :=
  fun t => (set_deviceName name t, None).

(** [func WithStore(store storage.TPMStore) NewTPMOption] *)
Definition WithStore (st : option TPMStore) : NewTPMOption :=
  fun t =>
    let st := match st with
              | None => Some BlackHole
              | Some _ => st
              end in
    (set_store st t, None).

Fixpoint apply_opts (opts : list NewTPMOption) (t : TPM) : error + TPM :=
  match opts with
  | [] => inr t
  | o :: opts' =>
      match o t with
      | (_, Some err) => inl err
      | (t', None) => apply_opts opts' t'
      end
  end.

(** [func New(opts ...NewTPMOption)], returning the pointer to the new
    handle or an error; the fields the literal leaves out have their zero
    values. *)
Definition New (opts : list NewTPMOption) : error + TPM :=
  let tpm :=
    {| deviceName := "";
       attestConfig := Some (mkOpenConfig Attest.TPMVersion20 None);
       attestTPM := None;
       rwc := None;
       lock := mkRWMutex false;
       store := Some BlackHole;
       simulator := None |} in
  apply_opts opts tpm.

(** ** Vocabulary of the statements *)

Definition populated {A} (o : option A) : bool :=
  match o with
  | Some _ => true
  | None => false
  end.

Definition exactly_one_backend (t : TPM) : bool :=
  xorb (populated (attestTPM t)) (populated (rwc t)).

Definition both_backends (t : TPM) : bool :=
  populated (attestTPM t) && populated (rwc t).

Definition no_backend (t : TPM) : bool :=
  negb (populated (attestTPM t)) && negb (populated (rwc t)).

Definition held (t : TPM) : TPM := set_lock (mkRWMutex true) t.
Definition released (t : TPM) : TPM := set_lock (mkRWMutex false) t.

(** The collaborator calls of a teardown, read off the handle. *)
Definition teardown_events (t : TPM) : list event :=
  match attestTPM t with
  | Some a => [EvAttestClose a]
  | None => []
  end ++
  match rwc t with
  | Some c => [EvRwcClose c]
  | None => []
  end.

Definition call_internal (c : call) : bool :=
  match c with
  | CallOpen ctx => isInternalCall ctx
  | CallClose ctx => isInternalCall ctx
  end.

(** The configuration [Open] builds around simulator [s]. *)
Definition simulator_config (s : Simulator) : option OpenConfig :=
  Some (mkOpenConfig Attest.TPMVersion20 (Some s)).

Definition is_simulator_config (s : Simulator) (cfg : option OpenConfig) : bool :=
  match cfg with
  | Some c =>
      (TPMVersion c =? Attest.TPMVersion20)%Z &&
      match CommandChannel c with
      | Some s' => (s' =? s)%nat
      | None => false
      end
  | None => false
  end.

(** Events a handle with simulator [s] may produce: no close of any
    backend, no device open, and sessions only over [s]. *)
Definition simulator_event (s : Simulator) (e : event) : bool :=
  match e with
  | EvLock | EvUnlock | EvStoreLoad _ => true
  | EvAttestOpenTPM cfg => is_simulator_config s cfg
  | EvOpenTPM _ => false
  | EvAttestClose _ => false
  | EvRwcClose _ => false
  end.

(** A handle as [New] leaves it, whatever the options set: nothing open,
    mutex free, no simulator. *)
Definition fresh (t : TPM) : bool :=
  negb (writer (lock t)) && no_backend t && negb (populated (simulator t)).

(** What holds of a handle without simulator between calls: the two
    backends are never both populated, and neither is while the mutex is
    free. *)
Definition lifecycle_inv (t : TPM) : bool :=
  negb (populated (simulator t))
  && negb (both_backends t)
  && (writer (lock t) || no_backend t).

(** ** The other info values *)

Module AttestInterface.

(** [attest.TPMInterface] is a [uint8]; the library declares the four
    interfaces with [iota], in this order. *)
Definition TPMInterface := Z.
Definition TPMInterfaceDirect : TPMInterface := 0%Z.
Definition TPMInterfaceKernelManaged : TPMInterface := 1%Z.
Definition TPMInterfaceDaemonManaged : TPMInterface := 2%Z.
Definition TPMInterfaceCommandChannel : TPMInterface := 3%Z.

End AttestInterface.

Definition Interface := AttestInterface.TPMInterface.

(** [func (i Interface) String() string] *)
Definition Interface_String (i : Interface) : string :=
  if (i =? AttestInterface.TPMInterfaceDirect)%Z then "direct"
  else if (i =? AttestInterface.TPMInterfaceKernelManaged)%Z then "kernel-managed"
  else if (i =? AttestInterface.TPMInterfaceDaemonManaged)%Z then "daemon-managed"
  else if (i =? AttestInterface.TPMInterfaceCommandChannel)%Z then "command-channel"
  else "unknown".

(** [func (i Interface) MarshalJSON() ([]byte, error)] *)
Definition Interface_MarshalJSON (i : Interface) : list ascii * option string :=
  Json.Marshal_string (Interface_String i).

(** The verb [%d] of [fmt.Sprintf] on an integer: decimal digits, no
    leading zero, a minus sign in front of a negative number. *)
Definition Sprintf_d (n : Z) : string :=
  DecimalString.NilZero.string_of_int (Z.to_int n).

(** [type FirmwareVersion struct]; the fields are Go [int]s. *)
Record FirmwareVersion := mkFirmwareVersion {
  Major : Z;
  Minor : Z
}.

(** [func (fv FirmwareVersion) String() string], that is
    [fmt.Sprintf("%d.%d", fv.Major, fv.Minor)]. *)
Definition FirmwareVersion_String (fv : FirmwareVersion) : string :=
  String.append (Sprintf_d (Major fv)) (String.append "." (Sprintf_d (Minor fv))).

(** [func (fv FirmwareVersion) MarshalJSON() ([]byte, error)] *)
Definition FirmwareVersion_MarshalJSON (fv : FirmwareVersion)
  : list ascii * option string :=
  Json.Marshal_string (FirmwareVersion_String fv).

(** [func (m Manufacturer) String() string], that is
    [fmt.Sprintf("%s (%s, %s, %d)", m.Name, m.ASCII, m.Hex, m.ID)]. *)
Definition Manufacturer_String (m : Manufacturer) : string :=
  String.append (Name m)
    (String.append " ("
       (String.append (ASCII m)
          (String.append ", "
             (String.append (Hex m)
                (String.append ", "
                   (String.append (Sprintf_d (ID m)) ")")))))).

Module TPMInfo.

(** [attest.TPMInfo], the answer of the attestation library. *)
Record t := mk {
  Version : Attest.TPMVersion;
  Interface : AttestInterface.TPMInterface;
  VendorInfo : string;
  Manufacturer : Z;
  FirmwareVersionMajor : Z;
  FirmwareVersionMinor : Z
}.

End TPMInfo.

Module Info.

(** [type Info struct] *)
Record t := mk {
  Version : Version;
  Interface : Interface;
  Manufacturer : Manufacturer;
  VendorInfo : string;
  FirmwareVersion : FirmwareVersion
}.

End Info.

(** ** Getting the info of a TPM *)

(** [defer d] around the rest of a function body: [d] runs when the body
    returns and when it panics; a panic of the body goes on after [d]
    unless [d] itself brings the program down. *)
Definition defer {A} (d : M unit) (body : M A) : M A :=
  fun w =>
    match body w with
    | (Returns a, w1) =>
        match d w1 with
        | (Returns _, w2) => (Returns a, w2)
        | (Blocks, w2) => (Blocks, w2)
        | (Panics p, w2) => (Panics p, w2)
        end
    | (Blocks, w1) => (Blocks, w1)
    | (Panics p, w1) =>
        match d w1 with
        | (Returns _, w2) => (Panics p, w2)
        | (Blocks, w2) => (Blocks, w2)
        | (Panics q, w2) => (Panics q, w2)
        end
    end.

Section GetInfo.

Variable env : Env.
Variable GetEncodings : manufacturer.ID -> string * string.
Variable GetNameByASCII : string -> string.

(** What the [Info] method of [attest.TPM] answers for a live session,
    given the calls made so far. *)
Variable env_attest_Info : AttestTPM -> list event -> error + TPMInfo.t.

(** [t.attestTPM.Info()]: the library method reads through its receiver,
    so a nil session is a nil dereference. *)
Definition attestTPM_Info (a : option AttestTPM) : M (error + TPMInfo.t) :=
  match a with
  | None => throw NilDereference
  | Some a => h <- history ;; ret (env_attest_Info a h)
  end.

(** [func (t *TPM) Info(ctx context.Context)], returning the info or an
    error. *)
Definition TPM_Info (ctx : Context) : M (error + Info.t) :=
  err <- Open env ctx ;;
  match err with
  | Some e => ret (inl (Errorf_w "failed opening TPM" e))
  | None =>
      defer (Close env ctx)
        (t <- get ;;
         r <- attestTPM_Info (attestTPM t) ;;
         match r with
         | inl e => ret (inl (Errorf_w "failed getting TPM info" e))
         | inr info =>
             ret (inr
               {| Info.FirmwareVersion :=
                    {| Major := TPMInfo.FirmwareVersionMajor info;
                       Minor := TPMInfo.FirmwareVersionMinor info |};
                  Info.Interface := TPMInfo.Interface info;
                  Info.Manufacturer :=
                    GetManufacturerByID GetEncodings GetNameByASCII
                      (TPMInfo.Manufacturer info);
                  Info.VendorInfo := TPMInfo.VendorInfo info;
                  Info.Version := TPMInfo.Version info |})
         end)
  end.

End GetInfo.

(** What [Info] returns once the library has answered: its error wrapped,
    or an info with the fields of the answer. *)
Definition info_answer (r : error + TPMInfo.t) (res : error + Info.t) : Prop :=
  match r with
  | inl e => res = inl (Errorf_w "failed getting TPM info" e)
  | inr info =>
      exists i : Info.t,
        res = inr i
        /\ Info.Version i = TPMInfo.Version info
        /\ Info.Interface i = TPMInfo.Interface info
        /\ ID (Info.Manufacturer i) = TPMInfo.Manufacturer info
        /\ Info.VendorInfo i = TPMInfo.VendorInfo info
        /\ Info.FirmwareVersion i
           = mkFirmwareVersion (TPMInfo.FirmwareVersionMajor info)
                               (TPMInfo.FirmwareVersionMinor info)
  end.

(** ** Options, by name *)

(** The two options this file declares, as data. *)
Inductive option_spec : Type :=
| DeviceNameOption (name : string)
| StoreOption (st : option TPMStore).

Definition build_option (o : option_spec) : NewTPMOption :=
  match o with
  | DeviceNameOption name => WithDeviceName name
  | StoreOption st => WithStore st
  end.

(** The device name the last [WithDeviceName] of a list gives, and the store
    the last [WithStore] gives, starting from the defaults of [New]. *)
Fixpoint last_deviceName (os : list option_spec) (d : string) : string :=
  match os with
  | [] => d
  | DeviceNameOption name :: os' => last_deviceName os' name
  | StoreOption _ :: os' => last_deviceName os' d
  end.

Fixpoint last_store (os : list option_spec) (d : TPMStore) : TPMStore :=
  match os with
  | [] => d
  | DeviceNameOption _ :: os' => last_store os' d
  | StoreOption None :: os' => last_store os' BlackHole
  | StoreOption (Some st) :: os' => last_store os' st
  end.

(** ** Counting the mutex calls of a trace *)


Definition is_unlock (e : event) : bool :=
  match e with
  | EvUnlock => true
  | _ => false
  end.

Definition is_attest_open (e : event) : bool :=
  match e with
  | EvAttestOpenTPM _ => true
  | _ => false
  end.

Definition count (p : event -> bool) (evs : list event) : nat :=
  List.length (filter p evs).


(** Characters of a printed integer. *)
Definition is_digit (c : ascii) : bool :=
  let n := nat_of_ascii c in (48 <=? n)%nat && (n <=? 57)%nat.

Definition decimal_char (c : ascii) : bool :=
  is_digit c || Ascii.eqb c "-"%char.

(** ** Certificates: the predicates on SANs and extensions *)

Module SubjectAlternativeName.

(** [type SubjectAlternativeName struct] *)
Record t := mk {
  Type_ : string;
  Value : string;
  ASN1Value : list ascii
}.

End SubjectAlternativeName.

(** [type ObjectIdentifier []int] *)
Definition ObjectIdentifier := list Z.

Module Extension.

(** [type Extension struct] *)
Record t := mk {
  ID : ObjectIdentifier;
  Critical : bool;
  Value : list ascii
}.

End Extension.

(** [type Certificate struct], with the two fields the predicates read. *)
Record Certificate := mkCertificate {
  SANs : list SubjectAlternativeName.t;
  Extensions : list Extension.t
}.

(** [func (oi ObjectIdentifier) Equal(other ObjectIdentifier) bool] of
    [encoding/asn1]: same length, same integers. *)
Definition ObjectIdentifier_Equal (oi other : ObjectIdentifier) : bool :=
  if negb (List.length oi =? List.length other)%nat then false
  else forallb (fun p => (fst p =? snd p)%Z) (combine oi other).

Section SANTypes.

(** The SAN type names are constants of another file of the package. *)
Variables DNSType IPType URIType AutoType EmailType : string.

(** The test in the loop of [hasExtendedSANs]. *)
Definition plain_SAN (san : SubjectAlternativeName.t) : bool :=
  let ty := SubjectAlternativeName.Type_ san in
  String.eqb ty DNSType || String.eqb ty IPType || String.eqb ty URIType
  || String.eqb ty AutoType || String.eqb ty EmailType || String.eqb ty "".

Fixpoint hasExtendedSANs_loop (sans : list SubjectAlternativeName.t) : bool :=
  match sans with
  | [] => false
  | san :: rest =>
      if negb (plain_SAN san) then true else hasExtendedSANs_loop rest
  end.

(** [func (c *Certificate) hasExtendedSANs() bool] *)
Definition hasExtendedSANs (c : Certificate) : bool :=
  hasExtendedSANs_loop (SANs c).

End SANTypes.

Fixpoint hasExtension_loop (es : list Extension.t) (oid : ObjectIdentifier) : bool :=
  match es with
  | [] => false
  | e :: rest =>
      if ObjectIdentifier_Equal (Extension.ID e) oid then true
      else hasExtension_loop rest oid
  end.

(** [func (c *Certificate) hasExtension(oid ObjectIdentifier) bool] *)
Definition hasExtension (c : Certificate) (oid : ObjectIdentifier) : bool :=
  hasExtension_loop (Extensions c) oid.

(** ** Sample collaborators and handles *)

(** Collaborators that never fail; a new session or channel is numbered by
    the length of the trace at the time it is opened. *)
Definition env_ok : Env :=
  mkEnv (fun _ _ => None)
        (fun _ h => inr (List.length h)) (fun _ h => inr (List.length h))
        (fun _ _ => None) (fun _ _ => None).

(** Collaborators that always fail. *)
Definition env_failing : Env :=
  mkEnv (fun id _ => Some (ExtError id))
        (fun _ _ => inl (ExtError 1)) (fun _ _ => inl (ExtError 2))
        (fun _ _ => Some (ExtError 3)) (fun _ _ => Some (ExtError 4)).

(** The handle [New] builds without options. *)
Definition tpm0 : TPM :=
  mkTPM "" (Some (mkOpenConfig Attest.TPMVersion20 None)) None None
        (mkRWMutex false) (Some BlackHole) None.

(** A handle with simulator 5 attached. *)
Definition tpm_sim : TPM :=
  mkTPM "" (Some (mkOpenConfig Attest.TPMVersion20 None)) None None
        (mkRWMutex false) (Some BlackHole) (Some 5%nat).

Definition ctx_plain : Context := mkContext false false.
Definition ctx_internal : Context := mkContext true false.
Definition ctx_goTPM : Context := mkContext false true.

(** An attestation library that answers every query with the same info, and
    lookups of the [manufacturer] package for it. *)
Definition sample_info : TPMInfo.t :=
  TPMInfo.mk Attest.TPMVersion20 AttestInterface.TPMInterfaceKernelManaged
             "SLB9670" 1229346816%Z 7%Z 22%Z.

Definition info_ok : AttestTPM -> list event -> error + TPMInfo.t :=
  fun _ _ => inr sample_info.

Definition info_failing : AttestTPM -> list event -> error + TPMInfo.t :=
  fun _ _ => inl (ExtError 6).

Definition sample_GetEncodings : manufacturer.ID -> string * string :=
  fun _ => ("IFX", "49465800").

Definition sample_GetNameByASCII : string -> string :=
  fun _ => "Infineon".

(** ** Proof support *)

Ltac unfold_calls :=
  unfold Open, Close, exec, lock_Lock, lock_Unlock, store_Load, attest_OpenTPM,
    open_TPM, attestTPM_Close, rwc_Close.

Ltac unfold_monad :=
  unfold bind, ret, get, modify, emit, history, block, throw.

Ltac step_call := unfold_calls; unfold_monad; cbn.

(** Case analysis on the next answer of a collaborator. *)
Ltac break_env :=
  match goal with
  | |- context [TPMStore_Load ?e ?s ?h] => destruct (TPMStore_Load e s h)
  | |- context [env_attest_OpenTPM ?e ?c ?h] => destruct (env_attest_OpenTPM e c h)
  | |- context [env_open_TPM ?e ?n ?h] => destruct (env_open_TPM e n h)
  end.

Ltac trace_extension :=
  first
    [ exists []; split; [now rewrite app_nil_r | reflexivity]
    | eexists; split;
      [reflexivity | cbn; rewrite ?Nat.eqb_refl; reflexivity] ].

Lemma app_two {A} (l : list A) (a b : A) : (l ++ [a]) ++ [b] = l ++ [a; b].
Proof. now rewrite <- app_assoc. Qed.

(** ** Reentrancy *)

(** C1. With the internal-call marker in the context, [Open] returns nil and
    [Close] returns, and neither changes the handle (the mutex and every
    backend field included) nor adds a collaborator call to the trace: no
    [Lock], no [Load], no [Unlock], no backend close. *)
Theorem internal_call_is_noop (env : Env) (ctx : Context) (w : World) :
  isInternalCall ctx = true ->
  Open env ctx w = (Returns None, w) /\ Close env ctx w = (Returns tt, w).
Proof.
  intros Hint. unfold Open, Close. rewrite Hint. split; reflexivity.
Qed.

Lemma internal_call_is_noop_witness :
  Open env_ok ctx_internal (mkWorld (held (set_attestTPM (Some 7) tpm0)) [EvLock])
    = (Returns None, mkWorld (held (set_attestTPM (Some 7) tpm0)) [EvLock])
  /\ Close env_ok ctx_internal (mkWorld (held (set_attestTPM (Some 7) tpm0)) [EvLock])
    = (Returns tt, mkWorld (held (set_attestTPM (Some 7) tpm0)) [EvLock]).
Proof.
  apply (internal_call_is_noop env_ok ctx_internal). reflexivity.
Defined.

(** ** Open: the store *)

(** C3. When a non-reentrant [Open] gets past [Lock] and [store.Load()]
    returns an error, [Open] returns that very error; the handle differs
    from the one before the call only in the mutex, which is now held (so no
    backend field changed), and the calls made are [Lock] then [Load]: no
    [Unlock] follows on this path. *)
Theorem open_load_failure (env : Env) (ctx : Context) (t : TPM)
    (h : list event) (st : TPMStore) (e : error) :
  isInternalCall ctx = false ->
  writer (lock t) = false ->
  store t = Some st ->
  TPMStore_Load env st (h ++ [EvLock]) = Some e ->
  Open env ctx (mkWorld t h)
    = (Returns (Some e), mkWorld (held t) (h ++ [EvLock; EvStoreLoad st]))
  /\ attestTPM (held t) = attestTPM t
  /\ rwc (held t) = rwc t
  /\ simulator (held t) = simulator t
  /\ writer (lock (held t)) = true
  /\ ~ In EvUnlock [EvLock; EvStoreLoad st].
Proof.
  intros Hint Hfree Hst Hload.
  split; [| repeat split; cbn; intuition discriminate].
  destruct t as [dn cfg a c [l] sto sim], ctx as [int go]. cbn in *. subst.
  step_call. rewrite Hload. now rewrite app_two.
Qed.

Lemma open_load_failure_witness :
  Open env_failing ctx_plain (mkWorld (set_store (Some (UserStore 9)) tpm0) [])
    = (Returns (Some (ExtError 9)),
       mkWorld (held (set_store (Some (UserStore 9)) tpm0))
               [EvLock; EvStoreLoad (UserStore 9)]).
Proof.
  apply (open_load_failure env_failing ctx_plain
           (set_store (Some (UserStore 9)) tpm0) [] (UserStore 9) (ExtError 9));
    reflexivity.
Defined.

(** ** Open: backend selection *)

(** C2. A non-reentrant [Open] that got past [Lock] and a successful
    [Load] chooses its backend in this order.  With a simulator and a
    session already there, nothing is opened and the simulator becomes the
    channel.  With a simulator and no session, one session is opened with
    the configuration built around the simulator, stored, and the simulator
    becomes the channel.  Without simulator and with the raw-transport
    marker, a channel to [deviceName] is opened and stored as the channel.
    Otherwise a session is opened from [attestConfig] and stored. *)
Theorem open_backend_selection (env : Env) (ctx : Context) (t : TPM)
    (h : list event) (st : TPMStore) :
  isInternalCall ctx = false ->
  writer (lock t) = false ->
  store t = Some st ->
  TPMStore_Load env st (h ++ [EvLock]) = None ->
  let h' := h ++ [EvLock; EvStoreLoad st] in
  (forall (s : Simulator) (a : AttestTPM),
      simulator t = Some s -> attestTPM t = Some a ->
      Open env ctx (mkWorld t h)
        = (Returns None, mkWorld (set_rwc (Some (RwcSimulator s)) (held t)) h'))
  /\ (forall (s : Simulator) (a : AttestTPM),
        simulator t = Some s -> attestTPM t = None ->
        env_attest_OpenTPM env (simulator_config s) h' = inr a ->
        Open env ctx (mkWorld t h)
          = (Returns None,
             mkWorld (set_rwc (Some (RwcSimulator s)) (set_attestTPM (Some a) (held t)))
                     (h' ++ [EvAttestOpenTPM (simulator_config s)])))
  /\ (forall fd : nat,
        simulator t = None -> isGoTPMCall ctx = true ->
        env_open_TPM env (deviceName t) h' = inr fd ->
        Open env ctx (mkWorld t h)
          = (Returns None,
             mkWorld (set_rwc (Some (RwcDevice fd)) (held t))
                     (h' ++ [EvOpenTPM (deviceName t)])))
  /\ (forall a : AttestTPM,
        simulator t = None -> isGoTPMCall ctx = false ->
        env_attest_OpenTPM env (attestConfig t) h' = inr a ->
        Open env ctx (mkWorld t h)
          = (Returns None,
             mkWorld (set_attestTPM (Some a) (held t))
                     (h' ++ [EvAttestOpenTPM (attestConfig t)]))).
Proof.
  intros Hint Hfree Hst Hload h'. subst h'.
  destruct t as [dn cfg a0 c [l] sto sim], ctx as [int go]. cbn in *. subst.
  repeat split.
  - intros s a -> ->. step_call. rewrite Hload. now rewrite app_two.
  - intros s a -> -> Hopen. step_call. rewrite Hload.
    cbn. rewrite app_two. unfold simulator_config in Hopen. rewrite Hopen.
    reflexivity.
  - intros fd -> -> Hopen. step_call. rewrite Hload.
    cbn. rewrite app_two, Hopen. reflexivity.
  - intros a -> -> Hopen. step_call. rewrite Hload.
    cbn. rewrite app_two, Hopen. reflexivity.
Qed.

Lemma open_backend_selection_witness :
  Open env_ok ctx_plain (mkWorld tpm_sim [])
    = (Returns None,
       mkWorld (set_rwc (Some (RwcSimulator 5)) (set_attestTPM (Some 2%nat) (held tpm_sim)))
               [EvLock; EvStoreLoad BlackHole; EvAttestOpenTPM (simulator_config 5)])
  /\ Open env_ok ctx_goTPM (mkWorld tpm0 [])
    = (Returns None,
       mkWorld (set_rwc (Some (RwcDevice 2)) (held tpm0))
               [EvLock; EvStoreLoad BlackHole; EvOpenTPM ""])
  /\ Open env_ok ctx_plain (mkWorld tpm0 [])
    = (Returns None,
       mkWorld (set_attestTPM (Some 2%nat) (held tpm0))
               [EvLock; EvStoreLoad BlackHole;
                EvAttestOpenTPM (Some (mkOpenConfig Attest.TPMVersion20 None))]).
Proof.
  split; [| split].
  - apply (proj1 (proj2 (open_backend_selection env_ok ctx_plain tpm_sim []
                           BlackHole eq_refl eq_refl eq_refl eq_refl)) 5%nat 2%nat);
      reflexivity.
  - apply (proj1 (proj2 (proj2 (open_backend_selection env_ok ctx_goTPM tpm0 []
                                  BlackHole eq_refl eq_refl eq_refl eq_refl))) 2%nat);
      reflexivity.
  - apply (proj2 (proj2 (proj2 (open_backend_selection env_ok ctx_plain tpm0 []
                                  BlackHole eq_refl eq_refl eq_refl eq_refl))) 2%nat);
      reflexivity.
Defined.

(** X21. When the backend cannot be opened, [Open] returns the error
    wrapped ("failed opening attest.TPM" over a simulator, "failed opening
    TPM" otherwise) and stores nothing; the mutex stays held and no [Unlock]
    is made. *)
Lemma open_backend_failure (env : Env) (ctx : Context) (t : TPM)
    (h : list event) (st : TPMStore) (e : error) :
  isInternalCall ctx = false ->
  writer (lock t) = false ->
  store t = Some st ->
  TPMStore_Load env st (h ++ [EvLock]) = None ->
  let h' := h ++ [EvLock; EvStoreLoad st] in
  (forall s : Simulator,
      simulator t = Some s -> attestTPM t = None ->
      env_attest_OpenTPM env (simulator_config s) h' = inl e ->
      Open env ctx (mkWorld t h)
        = (Returns (Some (Errorf_w "failed opening attest.TPM" e)),
           mkWorld (held t) (h' ++ [EvAttestOpenTPM (simulator_config s)])))
  /\ (simulator t = None -> isGoTPMCall ctx = true ->
      env_open_TPM env (deviceName t) h' = inl e ->
      Open env ctx (mkWorld t h)
        = (Returns (Some (Errorf_w "failed opening TPM" e)),
           mkWorld (held t) (h' ++ [EvOpenTPM (deviceName t)])))
  /\ (simulator t = None -> isGoTPMCall ctx = false ->
      env_attest_OpenTPM env (attestConfig t) h' = inl e ->
      Open env ctx (mkWorld t h)
        = (Returns (Some (Errorf_w "failed opening TPM" e)),
           mkWorld (held t) (h' ++ [EvAttestOpenTPM (attestConfig t)]))).
Proof.
  intros Hint Hfree Hst Hload h'. subst h'.
  destruct t as [dn cfg a0 c [l] sto sim], ctx as [int go]. cbn in *. subst.
  repeat split.
  - intros s -> -> Hopen. step_call. rewrite Hload.
    cbn. rewrite app_two. unfold simulator_config in Hopen. rewrite Hopen.
    reflexivity.
  - intros -> -> Hopen. step_call. rewrite Hload.
    cbn. rewrite app_two, Hopen. reflexivity.
  - intros -> -> Hopen. step_call. rewrite Hload.
    cbn. rewrite app_two, Hopen. reflexivity.
Qed.

(** ** Close *)

(** C5. A non-reentrant [Close] on a handle with a simulator makes one
    collaborator call, [Unlock]: no close of the simulator or of any
    backend.  The session, the channel and the simulator fields keep their
    values, and when the mutex was held the call returns with only the mutex
    changed. *)
Theorem close_with_simulator (env : Env) (ctx : Context) (t : TPM)
    (h : list event) (s : Simulator) :
  isInternalCall ctx = false ->
  simulator t = Some s ->
  let w' := snd (Close env ctx (mkWorld t h)) in
  trace w' = h ++ [EvUnlock]
  /\ attestTPM (tpm w') = attestTPM t
  /\ rwc (tpm w') = rwc t
  /\ simulator (tpm w') = Some s
  /\ (writer (lock t) = true ->
      Close env ctx (mkWorld t h) = (Returns tt, mkWorld (released t) (h ++ [EvUnlock]))).
Proof.
  intros Hint Hsim.
  destruct t as [dn cfg a c [l] sto sim], ctx as [int go]. cbn in *. subst.
  step_call. destruct l; cbn; repeat split; auto; discriminate.
Qed.

Lemma close_with_simulator_witness :
  Close env_failing ctx_plain
    (mkWorld (held (set_rwc (Some (RwcSimulator 5)) (set_attestTPM (Some 1%nat) tpm_sim)))
             [EvLock])
  = (Returns tt,
     mkWorld (set_rwc (Some (RwcSimulator 5)) (set_attestTPM (Some 1%nat) tpm_sim))
             [EvLock; EvUnlock]).
Proof.
  apply (close_with_simulator env_failing ctx_plain
           (held (set_rwc (Some (RwcSimulator 5)) (set_attestTPM (Some 1%nat) tpm_sim)))
           [EvLock] 5%nat); reflexivity.
Defined.

Lemma Close_without_simulator (env : Env) (ctx : Context) (t : TPM) (h : list event) :
  isInternalCall ctx = false ->
  simulator t = None ->
  writer (lock t) = true ->
  Close env ctx (mkWorld t h)
    = (Returns tt,
       mkWorld (released (set_rwc None (set_attestTPM None t)))
               (h ++ teardown_events t ++ [EvUnlock])).
Proof.
  intros Hint Hsim Hheld.
  destruct t as [dn cfg a c [l] sto sim], ctx as [int go]. cbn in *. subst.
  unfold teardown_events, released.
  destruct a as [a|], c as [c|]; step_call;
    rewrite <- ?app_assoc; reflexivity.
Qed.

(** C6. A non-reentrant [Close] on a handle without simulator, with the
    mutex held: the session is closed if there is one, then the channel if
    there is one, then the mutex is released; the call returns (it has no
    result) with both fields nil.  What the two close operations answer does
    not enter the result: any other collaborators give the same outcome. *)
Theorem close_teardown (env : Env) (ctx : Context) (t : TPM) (h : list event) :
  isInternalCall ctx = false ->
  simulator t = None ->
  writer (lock t) = true ->
  Close env ctx (mkWorld t h)
    = (Returns tt,
       mkWorld (released (set_rwc None (set_attestTPM None t)))
               (h ++ teardown_events t ++ [EvUnlock]))
  /\ forall env' : Env, Close env' ctx (mkWorld t h) = Close env ctx (mkWorld t h).
Proof.
  intros Hint Hsim Hheld. split.
  - now apply Close_without_simulator.
  - intros env'. now rewrite !Close_without_simulator.
Qed.

Lemma close_teardown_witness :
  Close env_failing ctx_plain
    (mkWorld (held (set_rwc (Some (RwcDevice 3)) (set_attestTPM (Some 1%nat) tpm0))) [EvLock])
  = (Returns tt,
     mkWorld tpm0 [EvLock; EvAttestClose 1%nat; EvRwcClose (RwcDevice 3); EvUnlock]).
Proof.
  apply (close_teardown env_failing ctx_plain
           (held (set_rwc (Some (RwcDevice 3)) (set_attestTPM (Some 1%nat) tpm0)))
           [EvLock]); reflexivity.
Defined.

(** ** Sequences of calls *)

Lemma run_cons (env : Env) (c : call) (cs : list call) (w : World) :
  run env (c :: cs) w
  = match exec env c w with
    | (Returns _, w') => run env cs w'
    | (Blocks, w') => (Blocks, w')
    | (Panics p, w') => (Panics p, w')
    end.
Proof. reflexivity. Qed.

Lemma exec_internal (env : Env) (c : call) (w : World) :
  call_internal c = true -> exec env c w = (Returns tt, w).
Proof.
  destruct c as [ctx | ctx]; cbn; intros Hint; unfold exec, Open, Close, bind, ret;
    rewrite Hint; reflexivity.
Qed.

Lemma run_internal (env : Env) (inner rest : list call) (w : World) :
  forallb call_internal inner = true ->
  run env (inner ++ rest) w = run env rest w.
Proof.
  induction inner as [| c inner IH]; cbn [forallb app]; intros Hall.
  - reflexivity.
  - apply andb_prop in Hall as [Hc Hinner].
    rewrite run_cons, (exec_internal env c w Hc). now apply IH.
Qed.

(** A property of the world that every call keeps, whatever its outcome,
    holds where a sequence of calls ends. *)
Lemma run_preserves (env : Env) (P : World -> Prop) :
  (forall c w, P w -> P (snd (exec env c w))) ->
  forall cs w, P w -> P (snd (run env cs w)).
Proof.
  intros Hstep cs. induction cs as [| c cs IH]; intros w Hw.
  - exact Hw.
  - rewrite run_cons. specialize (Hstep c w Hw).
    destruct (exec env c w) as [[[] | | p] w']; cbn in Hstep; auto.
Qed.

(** One cycle on the default handle: the session is opened from
    [attestConfig], closed again, and the handle is back where it was. *)
Example run_cycle_default :
  run env_ok [CallOpen ctx_plain; CallOpen ctx_internal; CallClose ctx_internal;
              CallClose ctx_plain] (mkWorld tpm0 [])
  = (Returns tt,
     mkWorld tpm0
       [EvLock; EvStoreLoad BlackHole;
        EvAttestOpenTPM (Some (mkOpenConfig Attest.TPMVersion20 None));
        EvAttestClose 2%nat; EvUnlock]).
Proof. reflexivity. Qed.

(** After an [Open] that failed in [Load] the mutex is still held: the next
    non-reentrant [Open] waits. *)
Example run_open_after_failed_load :
  fst (run env_failing [CallOpen ctx_plain; CallOpen ctx_plain]
         (mkWorld (set_store (Some (UserStore 9)) tpm0) []))
  = Blocks.
Proof. reflexivity. Qed.

(** Two cycles on a handle with a simulator: the session opened in the
    first is kept and used again, and nothing is closed. *)
Example run_cycles_simulator :
  run env_ok [CallOpen ctx_plain; CallClose ctx_plain;
              CallOpen ctx_plain; CallClose ctx_plain] (mkWorld tpm_sim [])
  = (Returns tt,
     mkWorld (set_rwc (Some (RwcSimulator 5)) (set_attestTPM (Some 2%nat) tpm_sim))
       [EvLock; EvStoreLoad BlackHole; EvAttestOpenTPM (simulator_config 5);
        EvUnlock; EvLock; EvStoreLoad BlackHole; EvUnlock]).
Proof. reflexivity. Qed.

Lemma exec_simulator_step (env : Env) (c : call) (w : World) (s : Simulator) :
  simulator (tpm w) = Some s ->
  let w' := snd (exec env c w) in
  simulator (tpm w') = Some s
  /\ (rwc (tpm w') = rwc (tpm w) \/ rwc (tpm w') = Some (RwcSimulator s))
  /\ exists evs, trace w' = trace w ++ evs /\ forallb (simulator_event s) evs = true.
Proof.
  intros Hsim.
  destruct w as [[dn cfg a ch [l] sto sim] h], c as [[int go] | [int go]];
    cbn in *; subst;
    destruct int, l, sto as [st|], a as [a|], go; step_call;
    repeat (break_env; cbn); rewrite <- ?app_assoc; cbn;
    (split; [reflexivity | split; [auto | trace_extension]]).
Qed.

(** C7. On a handle with simulator [s], after any sequence of [Open] and
    [Close] calls (with any contexts, any collaborators, and wherever the
    sequence stops): the simulator field is still [s]; the channel field is
    what it was or the alias of [s]; and the calls made since the start
    contain no close of a session or channel, hence no close of the
    simulator, and open sessions only over [s]. *)
Theorem simulator_preserved (env : Env) (t : TPM) (h : list event)
    (cs : list call) (s : Simulator) :
  simulator t = Some s ->
  let w' := snd (run env cs (mkWorld t h)) in
  simulator (tpm w') = Some s
  /\ (rwc (tpm w') = rwc t \/ rwc (tpm w') = Some (RwcSimulator s))
  /\ exists evs : list event,
       trace w' = h ++ evs
       /\ forallb (simulator_event s) evs = true
       /\ (forall c : ReadWriteCloser, ~ In (EvRwcClose c) evs)
       /\ (forall a : AttestTPM, ~ In (EvAttestClose a) evs)
       /\ (forall cfg : option OpenConfig,
             In (EvAttestOpenTPM cfg) evs -> is_simulator_config s cfg = true).
Proof.
  intros Hsim.
  pose (P := fun w : World =>
    simulator (tpm w) = Some s
    /\ (rwc (tpm w) = rwc t \/ rwc (tpm w) = Some (RwcSimulator s))
    /\ exists evs, trace w = h ++ evs /\ forallb (simulator_event s) evs = true).
  assert (HP : P (snd (run env cs (mkWorld t h)))).
  { apply run_preserves.
    - intros c w (Hs & Hrwc & evs & Htr & Hev).
      destruct (exec_simulator_step env c w s Hs) as (Hs' & Hrwc' & evs' & Htr' & Hev').
      split; [exact Hs' |]. split.
      + destruct Hrwc' as [-> | ->]; auto.
      + exists (evs ++ evs'). split.
        * now rewrite Htr', Htr, app_assoc.
        * rewrite forallb_app, Hev, Hev'. reflexivity.
    - split; [exact Hsim |]. split; [now left |].
      exists []. split; [cbn; now rewrite app_nil_r | reflexivity]. }
  destruct HP as (Hs & Hrwc & evs & Htr & Hev).
  split; [exact Hs |]. split; [exact Hrwc |].
  exists evs. split; [exact Htr |]. split; [exact Hev |].
  rewrite forallb_forall in Hev. repeat split.
  - intros c Hin. apply Hev in Hin. discriminate.
  - intros a Hin. apply Hev in Hin. discriminate.
  - intros cfg Hin. now apply Hev in Hin.
Qed.

Lemma simulator_preserved_witness :
  simulator
    (tpm (snd (run env_failing
                 [CallOpen ctx_plain; CallClose ctx_plain; CallOpen ctx_goTPM;
                  CallOpen ctx_internal; CallClose ctx_internal; CallClose ctx_plain]
                 (mkWorld tpm_sim []))))
  = Some 5%nat.
Proof.
  apply (simulator_preserved env_failing tpm_sim []
           [CallOpen ctx_plain; CallClose ctx_plain; CallOpen ctx_goTPM;
            CallOpen ctx_internal; CallClose ctx_internal; CallClose ctx_plain]
           5%nat).
  reflexivity.
Defined.

(** ** The two backends of a handle without simulator *)

Lemma fresh_lifecycle_inv (t : TPM) : fresh t = true -> lifecycle_inv t = true.
Proof.
  destruct t as [dn cfg [a|] [c|] [[|]] sto [sim|]]; cbn; congruence.
Qed.

Lemma exec_lifecycle_inv (env : Env) (c : call) (w : World) :
  lifecycle_inv (tpm w) = true ->
  lifecycle_inv (tpm (snd (exec env c w))) = true.
Proof.
  destruct w as [[dn cfg [a|] [ch|] [[|]] sto [sim|]] h]; cbn; try discriminate;
    intros _; destruct c as [[[|] go] | [[|] go]]; try reflexivity;
    destruct sto as [st|], go; step_call;
    repeat (break_env; cbn); reflexivity.
Qed.

Lemma Open_success_one_backend (env : Env) (ctx : Context) (w w1 : World) :
  lifecycle_inv (tpm w) = true ->
  isInternalCall ctx = false ->
  Open env ctx w = (Returns None, w1) ->
  exactly_one_backend (tpm w1) = true
  /\ writer (lock (tpm w1)) = true
  /\ simulator (tpm w1) = None.
Proof.
  destruct w as [[dn cfg [a|] [ch|] [[|]] sto [sim|]] h], ctx as [int go];
    cbn; try discriminate; intros _ ->;
    destruct sto as [st|], go; step_call;
    repeat (break_env; cbn); intros [= <-]; repeat split.
Qed.

(** C4. Take a handle as constructed (no simulator, nothing open, mutex
    free) and run any sequence of calls on it.  Where the sequence ends, the
    session and the channel are not both populated.  If the sequence
    returned and a non-reentrant [Open] then succeeds, exactly one of the
    two is populated; and after any number of reentrant calls, the
    non-reentrant [Close] returns with both nil and the mutex free. *)
Theorem backends_exclusive (env : Env) (t0 : TPM) (h0 : list event)
    (before : list call) :
  fresh t0 = true ->
  both_backends (tpm (snd (run env before (mkWorld t0 h0)))) = false
  /\ forall (ctx : Context) (w w1 : World),
       run env before (mkWorld t0 h0) = (Returns tt, w) ->
       isInternalCall ctx = false ->
       Open env ctx w = (Returns None, w1) ->
       exactly_one_backend (tpm w1) = true
       /\ forall (inner : list call) (ctx' : Context),
            forallb call_internal inner = true ->
            isInternalCall ctx' = false ->
            exists w2 : World,
              run env (inner ++ [CallClose ctx']) w1 = (Returns tt, w2)
              /\ no_backend (tpm w2) = true
              /\ writer (lock (tpm w2)) = false.
Proof.
  intros Hfresh.
  assert (Hinv : lifecycle_inv (tpm (snd (run env before (mkWorld t0 h0)))) = true).
  { apply (run_preserves env (fun w => lifecycle_inv (tpm w) = true)).
    - apply exec_lifecycle_inv.
    - now apply fresh_lifecycle_inv. }
  split.
  - unfold lifecycle_inv in Hinv.
    destruct (both_backends _); [| reflexivity].
    rewrite andb_false_r in Hinv. discriminate.
  - intros ctx w w1 Hrun Hint Hopen. rewrite Hrun in Hinv. cbn in Hinv.
    destruct (Open_success_one_backend env ctx w w1 Hinv Hint Hopen)
      as (Hone & Hheld & Hsim).
    split; [exact Hone |].
    intros inner ctx' Hinner Hint'.
    rewrite (run_internal env inner _ w1 Hinner), run_cons.
    destruct w1 as [t1 h1]. cbn [exec].
    rewrite (Close_without_simulator env ctx' t1 h1 Hint' Hsim Hheld).
    eexists. split; [reflexivity |]. split; reflexivity.
Qed.

Lemma backends_exclusive_witness :
  both_backends
    (tpm (snd (run env_ok [CallOpen ctx_goTPM; CallClose ctx_plain; CallOpen ctx_plain]
                 (mkWorld tpm0 []))))
  = false
  /\ exactly_one_backend
       (tpm (snd (Open env_ok ctx_goTPM
                    (snd (run env_ok [CallOpen ctx_plain; CallClose ctx_plain]
                            (mkWorld tpm0 []))))))
     = true.
Proof.
  split.
  - apply (backends_exclusive env_ok tpm0 []
             [CallOpen ctx_goTPM; CallClose ctx_plain; CallOpen ctx_plain]).
    reflexivity.
  - apply (proj2 (backends_exclusive env_ok tpm0 []
                    [CallOpen ctx_plain; CallClose ctx_plain] eq_refl)
             ctx_goTPM
             (snd (run env_ok [CallOpen ctx_plain; CallClose ctx_plain]
                     (mkWorld tpm0 [])))
             (snd (Open env_ok ctx_goTPM
                     (snd (run env_ok [CallOpen ctx_plain; CallClose ctx_plain]
                             (mkWorld tpm0 []))))));
      reflexivity.
Defined.

(** ** Construction and info values *)

(** C8. [New] without options returns a handle whose store is the
    black-hole store, not nil, and whose configuration asks for TPM version
    2.0; [WithStore] given a nil store sets the black-hole store, on any
    handle, and through [New] as well. *)
Theorem new_defaults :
  (exists t : TPM,
      New [] = inr t
      /\ store t = Some BlackHole
      /\ exists cfg : OpenConfig,
           attestConfig t = Some cfg
           /\ TPMVersion cfg = Attest.TPMVersion20
           /\ Version_String (TPMVersion cfg) = "TPM 2.0")
  /\ (forall t : TPM, WithStore None t = (set_store (Some BlackHole) t, None))
  /\ (exists t : TPM, New [WithStore None] = inr t /\ store t = Some BlackHole)
  /\ (forall (st : option TPMStore) (t : TPM), store (fst (WithStore st t)) <> None).
Proof.
  split; [| split; [| split]].
  - eexists. split; [reflexivity |]. split; [reflexivity |].
    eexists. repeat split.
  - reflexivity.
  - eexists. split; reflexivity.
  - intros [st|] t; cbn; discriminate.
Qed.

(** C9. For every version value exactly one of three cases applies:
    [TPMVersion12] with name "TPM 1.2" and JSON text 1.2 in double quotes,
    [TPMVersion20] with "TPM 2.0" and 2.0 in double quotes, or any other
    value with "unknown" and unknown in double quotes; [MarshalJSON] returns
    a nil error in each. *)
Theorem version_strings (v : Version) :
  (v = Attest.TPMVersion12
   /\ Version_String v = "TPM 1.2"
   /\ Version_MarshalJSON v
      = (Json.dquote :: list_ascii_of_string "1.2" ++ [Json.dquote], None))
  \/ (v = Attest.TPMVersion20
      /\ Version_String v = "TPM 2.0"
      /\ Version_MarshalJSON v
         = (Json.dquote :: list_ascii_of_string "2.0" ++ [Json.dquote], None))
  \/ (v <> Attest.TPMVersion12 /\ v <> Attest.TPMVersion20
      /\ Version_String v = "unknown"
      /\ Version_MarshalJSON v
         = (Json.dquote :: list_ascii_of_string "unknown" ++ [Json.dquote], None)).
Proof.
  unfold Version_String, Version_MarshalJSON.
  destruct (Z.eqb_spec v Attest.TPMVersion12) as [-> | H12].
  - left. repeat split.
  - destruct (Z.eqb_spec v Attest.TPMVersion20) as [-> | H20].
    + right; left. repeat split.
    + right; right. repeat split; assumption.
Qed.


(** ** Names and JSON texts of the info values *)

(** X1. The name of an interface is "unknown" exactly for the values
    outside the four the library declares, and two interfaces with the same
    name are equal unless both are unknown. *)
Theorem interface_names (i j : Interface) :
  (Interface_String i = "unknown" <-> ~ (0 <= i <= 3)%Z)
  /\ (Interface_String i = Interface_String j ->
      i = j \/ (Interface_String i = "unknown" /\ Interface_String j = "unknown")).
Proof.
  unfold Interface_String, AttestInterface.TPMInterfaceDirect,
    AttestInterface.TPMInterfaceKernelManaged,
    AttestInterface.TPMInterfaceDaemonManaged,
    AttestInterface.TPMInterfaceCommandChannel.
  destruct (Z.eqb_spec i 0), (Z.eqb_spec i 1), (Z.eqb_spec i 2), (Z.eqb_spec i 3);
    (split;
     [ split; [try discriminate; intros _; lia | intros H; try reflexivity; exfalso; lia]
     | destruct (Z.eqb_spec j 0), (Z.eqb_spec j 1), (Z.eqb_spec j 2), (Z.eqb_spec j 3);
       subst; intros H; try discriminate H; auto ]).
Qed.

(** X2. The JSON text of an interface is its name between double quotes,
    with no character escaped, and the error is nil. *)
Theorem interface_json (i : Interface) :
  Interface_MarshalJSON i
  = (Json.dquote :: list_ascii_of_string (Interface_String i) ++ [Json.dquote], None).
Proof.
  unfold Interface_MarshalJSON, Interface_String.
  repeat (destruct (_ =? _)%Z; [reflexivity |]). reflexivity.
Qed.

Lemma list_ascii_of_string_append (a b : string) :
  list_ascii_of_string (String.append a b)
  = list_ascii_of_string a ++ list_ascii_of_string b.
Proof.
  induction a as [| c a IH]; cbn; [reflexivity | now rewrite IH].
Qed.

Lemma list_ascii_of_string_inj (a b : string) :
  list_ascii_of_string a = list_ascii_of_string b -> a = b.
Proof.
  intros H. rewrite <- (string_of_list_ascii_of_string a),
    <- (string_of_list_ascii_of_string b). now rewrite H.
Qed.

(** Two texts cut at the first occurrence of a separator agree part by
    part. *)
Lemma split_at_separator {A} (sep : A) (l1 l2 r1 r2 : list A) :
  ~ In sep l1 -> ~ In sep l2 ->
  l1 ++ sep :: r1 = l2 ++ sep :: r2 ->
  l1 = l2 /\ r1 = r2.
Proof.
  revert l2. induction l1 as [| a l1 IH]; intros [| b l2] H1 H2 Heq; cbn in *.
  - now injection Heq.
  - injection Heq as -> _. exfalso. apply H2. now left.
  - injection Heq as -> _. exfalso. apply H1. now left.
  - injection Heq as -> Heq.
    destruct (IH l2) as [-> ->]; auto.
Qed.

Lemma uint_digits (d : Decimal.uint) :
  forallb is_digit (list_ascii_of_string (NilEmpty.string_of_uint d)) = true.
Proof.
  induction d; cbn [NilEmpty.string_of_uint list_ascii_of_string forallb];
    rewrite ?IHd; reflexivity.
Qed.

Lemma digits_decimal (l : list ascii) :
  forallb is_digit l = true -> forallb decimal_char l = true.
Proof.
  rewrite !forallb_forall. intros H c Hc. unfold decimal_char.
  now rewrite (H c Hc).
Qed.

Lemma Sprintf_d_chars (n : Z) :
  forallb decimal_char (list_ascii_of_string (Sprintf_d n)) = true.
Proof.
  assert (Hu : forall d, forallb decimal_char
             (list_ascii_of_string (NilZero.string_of_uint d)) = true).
  { intros d. destruct d; [reflexivity | ..]; apply digits_decimal;
      match goal with
      | |- context [NilZero.string_of_uint ?x] => exact (uint_digits x)
      end. }
  unfold Sprintf_d. destruct (Z.to_int n) as [d | d].
  - apply Hu.
  - cbn [NilZero.string_of_int list_ascii_of_string forallb].
    now rewrite Hu.
Qed.

Lemma Sprintf_d_without (sep : ascii) (n : Z) :
  decimal_char sep = false -> ~ In sep (list_ascii_of_string (Sprintf_d n)).
Proof.
  intros Hsep Hin. assert (H := Sprintf_d_chars n).
  rewrite forallb_forall in H. rewrite (H sep Hin) in Hsep. discriminate.
Qed.

Lemma Sprintf_d_inj (a b : Z) : Sprintf_d a = Sprintf_d b -> a = b.
Proof.
  unfold Sprintf_d. intros H.
  assert (Hn : forall n, Z.to_int n <> Decimal.Pos Decimal.Nil
                         /\ Z.to_int n <> Decimal.Neg Decimal.Nil).
  { intros [| p | p]; cbn; split; try discriminate;
      intros [= Hp]; now apply (DecimalPos.Unsigned.to_uint_nonnil p). }
  apply DecimalZ.to_int_inj.
  assert (Hs : Some (Z.to_int a) = Some (Z.to_int b)).
  { rewrite <- (NilZero.isi (Z.to_int a)), <- (NilZero.isi (Z.to_int b));
      try apply Hn. now rewrite H. }
  now injection Hs.
Qed.

(** X3. The text of a firmware version determines the version: two
    versions that print alike have the same major and minor numbers. *)
Theorem firmware_version_string_inj (a b : FirmwareVersion) :
  FirmwareVersion_String a = FirmwareVersion_String b -> a = b.
Proof.
  unfold FirmwareVersion_String. intros H.
  apply (f_equal list_ascii_of_string) in H.
  rewrite !list_ascii_of_string_append in H. cbn [list_ascii_of_string app] in H.
  apply split_at_separator in H; try (apply Sprintf_d_without; reflexivity).
  destruct H as [HM Hm].
  apply list_ascii_of_string_inj, Sprintf_d_inj in HM.
  apply list_ascii_of_string_inj, Sprintf_d_inj in Hm.
  destruct a, b; cbn in *; congruence.
Qed.

Lemma escape_byte_plain (c : ascii) :
  decimal_char c = true \/ c = "."%char -> Json.escape_byte c = [c].
Proof.
  intros [H | ->]; [| reflexivity].
  destruct c as [[] [] [] [] [] [] [] []]; cbn in H; try discriminate H;
    reflexivity.
Qed.

Lemma flat_map_escape_plain (l : list ascii) :
  (forall c, In c l -> decimal_char c = true \/ c = "."%char) ->
  flat_map Json.escape_byte l = l.
Proof.
  induction l as [| c l IH]; intros H; cbn [flat_map]; [reflexivity |].
  rewrite escape_byte_plain, IH; auto using in_eq, in_cons.
Qed.

(** X4. The JSON text of a firmware version is its text between double
    quotes, copied without escapes, whatever the two numbers are, and the
    error is nil. *)
Theorem firmware_version_json (fv : FirmwareVersion) :
  FirmwareVersion_MarshalJSON fv
  = (Json.dquote :: list_ascii_of_string (FirmwareVersion_String fv) ++ [Json.dquote],
     None).
Proof.
  unfold FirmwareVersion_MarshalJSON, Json.Marshal_string.
  rewrite flat_map_escape_plain; [reflexivity |].
  intros c. unfold FirmwareVersion_String.
  rewrite !list_ascii_of_string_append. cbn [list_ascii_of_string app].
  rewrite in_app_iff. cbn [In]. intros [H | [<- | H]]; [left | now right | left];
    (eapply forallb_forall in H; [exact H | apply Sprintf_d_chars]).
Qed.

Lemma firmware_version_string_inj_witness :
  mkFirmwareVersion 7 (-22) = mkFirmwareVersion 7 (-22).
Proof.
  apply (firmware_version_string_inj (mkFirmwareVersion 7 (-22))
           (mkFirmwareVersion 7 (-22))).
  reflexivity.
Defined.

(** X5. The text of a manufacturer ends with its identifier in decimal:
    two manufacturers that print alike have the same identifier, whatever
    their names and encodings contain. *)
Theorem manufacturer_string_id (m1 m2 : Manufacturer) :
  Manufacturer_String m1 = Manufacturer_String m2 -> ID m1 = ID m2.
Proof.
  unfold Manufacturer_String. intros H.
  apply (f_equal list_ascii_of_string) in H.
  rewrite !list_ascii_of_string_append in H.
  cbn [list_ascii_of_string app] in H.
  apply (f_equal (@rev ascii)) in H.
  repeat (rewrite ?rev_app_distr in H; cbn [rev app] in H).
  rewrite <- !app_assoc in H. cbn [app] in H.
  injection H as H.
  apply split_at_separator in H.
  - destruct H as [H _]. apply (f_equal (@rev ascii)) in H.
    rewrite !rev_involutive in H.
    now apply list_ascii_of_string_inj, Sprintf_d_inj in H.
  - rewrite <- in_rev. now apply Sprintf_d_without.
  - rewrite <- in_rev. now apply Sprintf_d_without.
Qed.

Lemma manufacturer_string_id_witness :
  ID (mkManufacturer 1229346816%Z "Infineon" "IFX" "49465800")
  = ID (mkManufacturer 1229346816%Z "Infineon" "IFX" "49465800").
Proof.
  apply (manufacturer_string_id
           (mkManufacturer 1229346816%Z "Infineon" "IFX" "49465800")
           (mkManufacturer 1229346816%Z "Infineon" "IFX" "49465800")).
  reflexivity.
Defined.

(** ** Construction with options *)

Lemma apply_standard_options (os : list option_spec) (t : TPM) (st : TPMStore) :
  store t = Some st ->
  apply_opts (map build_option os) t
  = inr (mkTPM (last_deviceName os (deviceName t)) (attestConfig t) (attestTPM t)
               (rwc t) (lock t) (Some (last_store os st)) (simulator t)).
Proof.
  revert t st. induction os as [| o os IH]; intros t st Hst.
  - destruct t; cbn in *. now subst.
  - destruct o as [name | [st' |]]; cbn [map build_option apply_opts];
      unfold WithDeviceName, WithStore; cbn [last_deviceName last_store].
    + rewrite (IH _ st) by exact Hst. reflexivity.
    + rewrite (IH _ st') by reflexivity. reflexivity.
    + rewrite (IH _ BlackHole) by reflexivity. reflexivity.
Qed.

(** X6. [New] with any list of [WithDeviceName] and [WithStore] options
    succeeds.  The handle has the name of the last [WithDeviceName] (empty
    without one) and the store of the last [WithStore] (the black hole
    without one or for a nil store), so the store is never nil; the
    configuration is the default one, nothing is open, the mutex is free and
    there is no simulator. *)
Theorem new_with_options (os : list option_spec) :
  exists t : TPM,
    New (map build_option os) = inr t
    /\ deviceName t = last_deviceName os ""
    /\ store t = Some (last_store os BlackHole)
    /\ attestConfig t = Some (mkOpenConfig Attest.TPMVersion20 None)
    /\ fresh t = true.
Proof.
  unfold New. rewrite (apply_standard_options os _ BlackHole) by reflexivity.
  eexists. split; [reflexivity |]. repeat split.
Qed.



(** ** The mutex across calls *)

Lemma Open_returns_held (env : Env) (ctx : Context) (w w1 : World)
    (r : option error) :
  isInternalCall ctx = false ->
  Open env ctx w = (Returns r, w1) ->
  writer (lock (tpm w)) = false
  /\ writer (lock (tpm w1)) = true
  /\ exists evs, trace w1 = trace w ++ EvLock :: evs /\ count is_unlock evs = 0%nat.
Proof.
  destruct w as [[dn cfg a ch [l] sto sim] h], ctx as [int go]; cbn.
  intros ->.
  destruct l, sto as [st|], sim as [s|], a as [a|], go; step_call;
    repeat (break_env; cbn); intros [= <- <-]; cbn;
    (split; [reflexivity | split; [reflexivity |]]);
    rewrite <- ?app_assoc; cbn; eexists; split; reflexivity.
Qed.

Lemma Open_blocks_when_held (env : Env) (ctx : Context) (w : World) :
  isInternalCall ctx = false ->
  writer (lock (tpm w)) = true ->
  Open env ctx w = (Blocks, w).
Proof.
  destruct w as [[dn cfg a ch [l] sto sim] h], ctx as [int go]; cbn.
  intros -> ->. reflexivity.
Qed.

(** X8. A non-reentrant [Open] that returns, with nil or with any error,
    found the mutex free and leaves it held, and after its [Lock] it makes
    no [Unlock].  A second non-reentrant [Open] right after it therefore
    waits on the mutex and changes nothing. *)
Theorem open_keeps_mutex (env : Env) (ctx ctx' : Context) (w w1 : World)
    (r : option error) :
  isInternalCall ctx = false ->
  isInternalCall ctx' = false ->
  Open env ctx w = (Returns r, w1) ->
  writer (lock (tpm w)) = false
  /\ writer (lock (tpm w1)) = true
  /\ (exists evs, trace w1 = trace w ++ EvLock :: evs /\ count is_unlock evs = 0%nat)
  /\ Open env ctx' w1 = (Blocks, w1).
Proof.
  intros Hint Hint' Hopen.
  destruct (Open_returns_held env ctx w w1 r Hint Hopen) as (Hfree & Hheld & Hevs).
  repeat split; auto. now apply Open_blocks_when_held.
Qed.

Lemma open_keeps_mutex_witness :
  Open env_failing ctx_goTPM
    (snd (Open env_failing ctx_plain (mkWorld tpm0 [])))
  = (Blocks, snd (Open env_failing ctx_plain (mkWorld tpm0 []))).
Proof.
  apply (open_keeps_mutex env_failing ctx_plain ctx_goTPM (mkWorld tpm0 [])
           (snd (Open env_failing ctx_plain (mkWorld tpm0 [])))
           (Some (Errorf_w "failed opening TPM" (ExtError 1))));
    reflexivity.
Defined.

Lemma Close_returns_released (env : Env) (ctx : Context) (w w1 : World) :
  isInternalCall ctx = false ->
  Close env ctx w = (Returns tt, w1) ->
  writer (lock (tpm w)) = true /\ writer (lock (tpm w1)) = false.
Proof.
  destruct w as [[dn cfg a ch [l] sto sim] h], ctx as [int go]; cbn.
  intros ->.
  destruct l, sim as [s|], a as [a|], ch as [c|]; step_call;
    intros [= <-]; split; reflexivity.
Qed.

Lemma Close_panics_when_free (env : Env) (ctx : Context) (w : World) :
  isInternalCall ctx = false ->
  writer (lock (tpm w)) = false ->
  fst (Close env ctx w) = Panics UnlockOfUnlockedMutex
  /\ (simulator (tpm w) = None -> no_backend (tpm (snd (Close env ctx w))) = true).
Proof.
  destruct w as [[dn cfg a ch [l] sto sim] h], ctx as [int go]; cbn.
  intros -> ->.
  destruct sim as [s|], a as [a|], ch as [c|]; step_call;
    split; try reflexivity; discriminate.
Qed.

(** X9. A non-reentrant [Close] on a handle whose mutex is free ends in
    the fatal error of unlocking an unlocked mutex; without simulator it has
    by then cleared both backends.  So does a second non-reentrant [Close]
    after one that returned. *)
Theorem close_without_open_is_fatal (env : Env) (ctx ctx' : Context) (w : World) :
  isInternalCall ctx = false ->
  isInternalCall ctx' = false ->
  (writer (lock (tpm w)) = false ->
   fst (Close env ctx w) = Panics UnlockOfUnlockedMutex
   /\ (simulator (tpm w) = None -> no_backend (tpm (snd (Close env ctx w))) = true))
  /\ (forall w1 : World,
        Close env ctx w = (Returns tt, w1) ->
        fst (Close env ctx' w1) = Panics UnlockOfUnlockedMutex).
Proof.
  intros Hint Hint'. split.
  - now apply Close_panics_when_free.
  - intros w1 Hclose.
    apply (Close_returns_released env ctx w w1 Hint) in Hclose as [_ Hfree].
    now apply Close_panics_when_free.
Qed.

Lemma close_without_open_is_fatal_witness :
  fst (Close env_ok ctx_plain (mkWorld tpm0 [])) = Panics UnlockOfUnlockedMutex
  /\ fst (run env_ok [CallOpen ctx_plain; CallClose ctx_plain; CallClose ctx_plain]
            (mkWorld tpm0 []))
     = Panics UnlockOfUnlockedMutex.
Proof.
  split.
  - apply (proj1 (close_without_open_is_fatal env_ok ctx_plain ctx_plain
                    (mkWorld tpm0 []) eq_refl eq_refl)).
    reflexivity.
  - apply (proj2 (close_without_open_is_fatal env_ok ctx_plain ctx_plain
                    (snd (Open env_ok ctx_plain (mkWorld tpm0 []))) eq_refl eq_refl)
             (mkWorld tpm0
                [EvLock; EvStoreLoad BlackHole;
                 EvAttestOpenTPM (Some (mkOpenConfig Attest.TPMVersion20 None));
                 EvAttestClose 2%nat; EvUnlock])).
    reflexivity.
Defined.

(** X10. Without simulator, on a handle with nothing open and the mutex
    free: whatever a non-reentrant [Open] returns, nil or an error, the
    non-reentrant [Close] after it returns and leaves the handle exactly as
    it was before the [Open]. *)
Theorem open_close_restores (env : Env) (ctx ctx' : Context) (t : TPM)
    (h : list event) (r : option error) (w1 : World) :
  fresh t = true ->
  isInternalCall ctx = false ->
  isInternalCall ctx' = false ->
  Open env ctx (mkWorld t h) = (Returns r, w1) ->
  exists h2 : list event, Close env ctx' w1 = (Returns tt, mkWorld t h2).
Proof.
  destruct t as [dn cfg [a|] [ch|] [[|]] sto [sim|]], ctx as [int go],
    ctx' as [int' go']; cbn; try discriminate.
  intros _ -> ->.
  destruct sto as [st|], go; step_call;
    repeat (break_env; cbn); intros [= <- <-]; cbn;
    eexists; reflexivity.
Qed.

Lemma open_close_restores_witness :
  exists h2 : list event,
    Close env_failing ctx_plain (snd (Open env_failing ctx_goTPM (mkWorld tpm0 [])))
    = (Returns tt, mkWorld tpm0 h2).
Proof.
  apply (open_close_restores env_failing ctx_goTPM ctx_plain tpm0 []
           (Some (Errorf_w "failed opening TPM" (ExtError 2))));
    reflexivity.
Defined.

Lemma count_app (p : event -> bool) (l1 l2 : list event) :
  count p (l1 ++ l2) = (count p l1 + count p l2)%nat.
Proof. unfold count. now rewrite filter_app, length_app. Qed.

Lemma exec_session_step (env : Env) (c : call) (w : World) (s : Simulator)
    (a : AttestTPM) :
  simulator (tpm w) = Some s ->
  attestTPM (tpm w) = Some a ->
  let w' := snd (exec env c w) in
  simulator (tpm w') = Some s
  /\ attestTPM (tpm w') = Some a
  /\ exists evs, trace w' = trace w ++ evs /\ count is_attest_open evs = 0%nat.
Proof.
  intros Hsim Hatt.
  destruct w as [[dn cfg a0 ch [l] sto sim] h], c as [[int go] | [int go]];
    cbn in *; subst;
    destruct int, l, sto as [st|], go; step_call;
    repeat (break_env; cbn); rewrite <- ?app_assoc; cbn;
    (split; [reflexivity | split; [reflexivity |]]);
    first [ exists []; split; [now rewrite app_nil_r | reflexivity]
          | eexists; split; reflexivity ].
Qed.

(** X11. On a handle with a simulator and a session, no sequence of
    [Open] and [Close] calls opens another session or drops the one there:
    the session field keeps its value and the calls made contain no
    [attest.OpenTPM]. *)
Theorem simulator_session_kept (env : Env) (t : TPM) (h : list event)
    (cs : list call) (s : Simulator) (a : AttestTPM) :
  simulator t = Some s ->
  attestTPM t = Some a ->
  let w' := snd (run env cs (mkWorld t h)) in
  attestTPM (tpm w') = Some a
  /\ exists evs : list event,
       trace w' = h ++ evs /\ count is_attest_open evs = 0%nat.
Proof.
  intros Hsim Hatt.
  pose (P := fun w : World =>
    simulator (tpm w) = Some s /\ attestTPM (tpm w) = Some a
    /\ exists evs, trace w = h ++ evs /\ count is_attest_open evs = 0%nat).
  assert (HP : P (snd (run env cs (mkWorld t h)))).
  { apply run_preserves.
    - intros c w (Hs & Ha & evs & Htr & Hev).
      destruct (exec_session_step env c w s a Hs Ha) as (Hs' & Ha' & evs' & Htr' & Hev').
      repeat split; auto. exists (evs ++ evs'). split.
      + now rewrite Htr', Htr, app_assoc.
      + now rewrite count_app, Hev, Hev'.
    - repeat split; auto. exists []. split; [cbn; now rewrite app_nil_r | reflexivity]. }
  destruct HP as (_ & Ha & Hevs). split; assumption.
Qed.

Lemma simulator_session_kept_witness :
  attestTPM
    (tpm (snd (run env_ok
                 [CallOpen ctx_plain; CallClose ctx_plain; CallOpen ctx_goTPM;
                  CallClose ctx_plain]
                 (mkWorld (set_attestTPM (Some 8%nat) tpm_sim) []))))
  = Some 8%nat.
Proof.
  apply (simulator_session_kept env_ok (set_attestTPM (Some 8%nat) tpm_sim) []
           [CallOpen ctx_plain; CallClose ctx_plain; CallOpen ctx_goTPM;
            CallClose ctx_plain] 5%nat 8%nat); reflexivity.
Defined.




Lemma Open_fresh_returns (env : Env) (ctx : Context) (t : TPM) (h : list event) :
  writer (lock t) = false ->
  store t <> None ->
  exists r w1, Open env ctx (mkWorld t h) = (Returns r, w1).
Proof.
  destruct t as [dn cfg a ch [l] [st|] sim], ctx as [int go]; cbn;
    intros -> Hst; [| congruence].
  destruct int, sim as [s|], a as [a|], go; step_call;
    repeat (break_env; cbn); eexists; eexists; reflexivity.
Qed.

(** X13. The first [Open] on a handle that [New] built from
    [WithDeviceName] and [WithStore] options returns, with nil or an error,
    for every context and whatever the collaborators answer: it neither
    waits on the mutex nor hits a nil store. *)
Theorem open_on_new_handle_returns (env : Env) (os : list option_spec)
    (ctx : Context) (h : list event) :
  exists (t : TPM) (r : option error) (w1 : World),
    New (map build_option os) = inr t
    /\ Open env ctx (mkWorld t h) = (Returns r, w1).
Proof.
  unfold New. rewrite (apply_standard_options os _ BlackHole) by reflexivity.
  eexists.
  match goal with
  | |- exists r w1, inr ?t = _ /\ _ =>
      destruct (Open_fresh_returns env ctx t h) as (r & w1 & Hopen);
        [reflexivity | discriminate |]
  end.
  exists r, w1. split; [reflexivity | exact Hopen].
Qed.

Lemma open_backend_failure_witness :
  Open env_failing ctx_plain (mkWorld tpm_sim [])
    = (Returns (Some (Errorf_w "failed opening attest.TPM" (ExtError 1))),
       mkWorld (held tpm_sim)
               [EvLock; EvStoreLoad BlackHole; EvAttestOpenTPM (simulator_config 5)])
  /\ Open env_failing ctx_goTPM (mkWorld tpm0 [])
    = (Returns (Some (Errorf_w "failed opening TPM" (ExtError 2))),
       mkWorld (held tpm0) [EvLock; EvStoreLoad BlackHole; EvOpenTPM ""]).
Proof.
  split.
  - apply (proj1 (open_backend_failure env_failing ctx_plain tpm_sim [] BlackHole
                    (ExtError 1) eq_refl eq_refl eq_refl eq_refl) 5%nat);
      reflexivity.
  - apply (proj1 (proj2 (open_backend_failure env_failing ctx_goTPM tpm0 [] BlackHole
                           (ExtError 2) eq_refl eq_refl eq_refl eq_refl)));
      reflexivity.
Defined.

(** ** Getting the info *)

Section InfoProperties.

Variable env : Env.
Variable GetEncodings : manufacturer.ID -> string * string.
Variable GetNameByASCII : string -> string.
Variable env_attest_Info : AttestTPM -> list event -> error + TPMInfo.t.


Lemma answer_built (info : TPMInfo.t) :
  info_answer (inr info)
    (inr {| Info.FirmwareVersion :=
              {| Major := TPMInfo.FirmwareVersionMajor info;
                 Minor := TPMInfo.FirmwareVersionMinor info |};
            Info.Interface := TPMInfo.Interface info;
            Info.Manufacturer :=
              GetManufacturerByID GetEncodings GetNameByASCII
                (TPMInfo.Manufacturer info);
            Info.VendorInfo := TPMInfo.VendorInfo info;
            Info.Version := TPMInfo.Version info |}).
Proof.
  unfold info_answer. eexists. split; [reflexivity |]. cbn. repeat split.
  unfold GetManufacturerByID. now destruct (GetEncodings _).
Qed.

(** X14. [Info] on a closed handle without simulator, with a plain
    context, when [Load] and [attest.OpenTPM] succeed: the session is
    opened, asked, closed and the mutex released, whether the library
    answers with an info or with an error (the deferred [Close] runs in both
    cases), and the handle is left exactly as it was.  An error of the library is
    returned wrapped; an info is returned with its fields copied and the
    manufacturer looked up under the same identifier. *)
Theorem info_default_cycle (ctx : Context) (t : TPM) (h : list event)
    (st : TPMStore) (a : AttestTPM) :
  fresh t = true ->
  isInternalCall ctx = false ->
  isGoTPMCall ctx = false ->
  store t = Some st ->
  TPMStore_Load env st (h ++ [EvLock]) = None ->
  env_attest_OpenTPM env (attestConfig t) (h ++ [EvLock; EvStoreLoad st]) = inr a ->
  let h' := h ++ [EvLock; EvStoreLoad st; EvAttestOpenTPM (attestConfig t)] in
  exists res : error + Info.t,
    TPM_Info env GetEncodings GetNameByASCII env_attest_Info ctx (mkWorld t h)
      = (Returns res, mkWorld t (h' ++ [EvAttestClose a; EvUnlock]))
    /\ info_answer (env_attest_Info a h') res.
Proof.
  destruct t as [dn cfg [a0|] [ch|] [[|]] sto [sim|]], ctx as [int go];
    cbn; try discriminate.
  intros _ -> -> -> Hload Hopen. unfold TPM_Info, defer, attestTPM_Info.
  step_call. rewrite Hload. step_call. rewrite app_two, Hopen. step_call.
  rewrite <- !app_assoc. cbn [app].
  destruct (env_attest_Info a _) as [e | info] eqn:Hinfo; step_call;
    rewrite <- ?app_assoc; cbn [app];
    eexists; (split; [reflexivity |]).
  - reflexivity.
  - apply answer_built.
Qed.

(** X15. When the [Open] inside a non-reentrant [Info] returns an error,
    [Info] returns it wrapped and does not run [Close]: the mutex stays
    held, and the next non-reentrant [Info] waits on it for ever. *)
Theorem info_open_failure (ctx ctx' : Context) (w w1 : World) (e : error) :
  isInternalCall ctx = false ->
  isInternalCall ctx' = false ->
  Open env ctx w = (Returns (Some e), w1) ->
  TPM_Info env GetEncodings GetNameByASCII env_attest_Info ctx w
    = (Returns (inl (Errorf_w "failed opening TPM" e)), w1)
  /\ writer (lock (tpm w1)) = true
  /\ TPM_Info env GetEncodings GetNameByASCII env_attest_Info ctx' w1 = (Blocks, w1).
Proof.
  intros Hint Hint' Hopen.
  destruct (Open_returns_held env ctx w w1 _ Hint Hopen) as (_ & Hheld & _).
  unfold TPM_Info, bind.
  rewrite Hopen, (Open_blocks_when_held env ctx' w1 Hint' Hheld).
  repeat split; auto.
Qed.

(** X16. [Info] with the raw-transport marker on a closed handle without
    simulator: [Open] stores a channel and no session, so asking the session
    is a nil dereference.  The deferred [Close] still runs, closing the
    channel and releasing the mutex, and the handle is left as it was. *)
Theorem info_raw_transport_panics (ctx : Context) (t : TPM) (h : list event)
    (st : TPMStore) (fd : nat) :
  fresh t = true ->
  isInternalCall ctx = false ->
  isGoTPMCall ctx = true ->
  store t = Some st ->
  TPMStore_Load env st (h ++ [EvLock]) = None ->
  env_open_TPM env (deviceName t) (h ++ [EvLock; EvStoreLoad st]) = inr fd ->
  TPM_Info env GetEncodings GetNameByASCII env_attest_Info ctx (mkWorld t h)
    = (Panics NilDereference,
       mkWorld t (h ++ [EvLock; EvStoreLoad st; EvOpenTPM (deviceName t);
                        EvRwcClose (RwcDevice fd); EvUnlock])).
Proof.
  destruct t as [dn cfg [a0|] [ch|] [[|]] sto [sim|]], ctx as [int go];
    cbn; try discriminate.
  intros _ -> -> -> Hload Hopen. unfold TPM_Info, defer, attestTPM_Info.
  step_call. rewrite Hload. step_call. rewrite app_two, Hopen. step_call.
  rewrite <- !app_assoc. reflexivity.
Qed.

(** X17. [Info] with the internal-call marker takes no part in the
    lifecycle: it leaves the handle and the trace as they are, asks the
    session that is there, and panics when there is none. *)
Theorem info_internal (ctx : Context) (w : World) :
  isInternalCall ctx = true ->
  snd (TPM_Info env GetEncodings GetNameByASCII env_attest_Info ctx w) = w
  /\ (attestTPM (tpm w) = None ->
      fst (TPM_Info env GetEncodings GetNameByASCII env_attest_Info ctx w)
      = Panics NilDereference)
  /\ (forall a : AttestTPM,
        attestTPM (tpm w) = Some a ->
        exists res : error + Info.t,
          fst (TPM_Info env GetEncodings GetNameByASCII env_attest_Info ctx w)
          = Returns res
          /\ info_answer (env_attest_Info a (trace w)) res).
Proof.
  destruct ctx as [int go]; cbn. intros ->.
  unfold TPM_Info, defer, attestTPM_Info. step_call.
  destruct w as [t h]. cbn.
  destruct (attestTPM t) as [a |] eqn:Ha; cbn.
  - destruct (env_attest_Info a h) as [e | info] eqn:Hinfo; cbn;
      (split; [reflexivity |]); (split; [discriminate |]);
      intros a' [= <-]; rewrite Hinfo; eexists; (split; [reflexivity |]).
    + reflexivity.
    + apply answer_built.
  - split; [reflexivity |]. split; [reflexivity | discriminate].
Qed.

(** X18. Two [Info] calls in a row on a handle with a simulator, the
    mutex free and no session yet: the first opens a session over the
    simulator and leaves it in the handle; the second opens nothing, asks
    that same session, and leaves the handle as the first did.  Neither
    closes anything. *)
Theorem info_simulator_reuse (ctx ctx' : Context) (t : TPM) (h : list event)
    (st : TPMStore) (s : Simulator) (a : AttestTPM) :
  simulator t = Some s ->
  attestTPM t = None ->
  writer (lock t) = false ->
  isInternalCall ctx = false ->
  isInternalCall ctx' = false ->
  store t = Some st ->
  let h1 := h ++ [EvLock; EvStoreLoad st; EvAttestOpenTPM (simulator_config s)] in
  let t1 := set_rwc (Some (RwcSimulator s)) (set_attestTPM (Some a) t) in
  TPMStore_Load env st (h ++ [EvLock]) = None ->
  env_attest_OpenTPM env (simulator_config s) (h ++ [EvLock; EvStoreLoad st]) = inr a ->
  TPMStore_Load env st (h1 ++ [EvUnlock; EvLock]) = None ->
  exists res1 res2 : error + Info.t,
    TPM_Info env GetEncodings GetNameByASCII env_attest_Info ctx (mkWorld t h)
    = (Returns res1, mkWorld t1 (h1 ++ [EvUnlock]))
    /\ info_answer (env_attest_Info a h1) res1
    /\ TPM_Info env GetEncodings GetNameByASCII env_attest_Info ctx'
         (mkWorld t1 (h1 ++ [EvUnlock]))
       = (Returns res2,
          mkWorld t1 (h1 ++ [EvUnlock; EvLock; EvStoreLoad st; EvUnlock]))
    /\ info_answer (env_attest_Info a (h1 ++ [EvUnlock; EvLock; EvStoreLoad st])) res2.
Proof.
  destruct t as [dn cfg a0 ch [l] sto sim], ctx as [int go], ctx' as [int' go'];
    cbn. intros -> -> -> -> -> -> Hload1 Hopen Hload2.
  unfold simulator_config in *.
  rewrite <- ?app_assoc in Hload2. cbn [app] in Hload2.
  unfold TPM_Info, defer, attestTPM_Info.
  step_call. rewrite Hload1. step_call. rewrite <- ?app_assoc. cbn [app].
  rewrite Hopen. step_call. rewrite <- ?app_assoc. cbn [app].
  rewrite Hload2.
  destruct (env_attest_Info a (h ++ [_; _; _])) as [e1 | i1] eqn:Hi1;
    step_call; rewrite <- ?app_assoc; cbn [app];
    match goal with
    | |- context [env_attest_Info a (h ++ [?e1; ?e2; ?e3; ?e4; ?e5; ?e6])] =>
        destruct (env_attest_Info a (h ++ [e1; e2; e3; e4; e5; e6]))
          as [e2' | i2] eqn:Hi2
    end; step_call; rewrite <- ?app_assoc; cbn [app];
    eexists; eexists;
    (split; [reflexivity |]); (split; [try reflexivity; try apply answer_built |]);
    (split; [reflexivity |]); try reflexivity; apply answer_built.
Qed.

End InfoProperties.

Lemma info_default_cycle_witness :
  exists res : error + Info.t,
    TPM_Info env_ok sample_GetEncodings sample_GetNameByASCII info_failing
      ctx_plain (mkWorld tpm0 [])
    = (Returns res,
       mkWorld tpm0
         (([] ++ [EvLock; EvStoreLoad BlackHole; EvAttestOpenTPM (attestConfig tpm0)])
          ++ [EvAttestClose 2%nat; EvUnlock]))
    /\ info_answer (inl (ExtError 6)) res.
Proof.
  apply (info_default_cycle env_ok sample_GetEncodings sample_GetNameByASCII
           info_failing ctx_plain tpm0 [] BlackHole 2%nat); reflexivity.
Defined.

Lemma info_open_failure_witness :
  TPM_Info env_failing sample_GetEncodings sample_GetNameByASCII info_ok ctx_plain
    (snd (Open env_failing ctx_plain (mkWorld tpm0 [])))
  = (Blocks, snd (Open env_failing ctx_plain (mkWorld tpm0 []))).
Proof.
  apply (info_open_failure env_failing sample_GetEncodings sample_GetNameByASCII
           info_ok ctx_plain ctx_plain (mkWorld tpm0 [])
           (snd (Open env_failing ctx_plain (mkWorld tpm0 [])))
           (Errorf_w "failed opening TPM" (ExtError 1)));
    reflexivity.
Defined.

Lemma info_raw_transport_panics_witness :
  TPM_Info env_ok sample_GetEncodings sample_GetNameByASCII info_ok ctx_goTPM
    (mkWorld tpm0 [])
  = (Panics NilDereference,
     mkWorld tpm0 [EvLock; EvStoreLoad BlackHole; EvOpenTPM "";
                   EvRwcClose (RwcDevice 2); EvUnlock]).
Proof.
  apply (info_raw_transport_panics env_ok sample_GetEncodings sample_GetNameByASCII
           info_ok ctx_goTPM tpm0 [] BlackHole 2%nat); reflexivity.
Defined.

Lemma info_internal_witness :
  snd (TPM_Info env_ok sample_GetEncodings sample_GetNameByASCII info_ok ctx_internal
         (mkWorld (held (set_attestTPM (Some 2%nat) tpm0)) [EvLock]))
  = mkWorld (held (set_attestTPM (Some 2%nat) tpm0)) [EvLock].
Proof.
  apply (info_internal env_ok sample_GetEncodings sample_GetNameByASCII info_ok
           ctx_internal (mkWorld (held (set_attestTPM (Some 2%nat) tpm0)) [EvLock])).
  reflexivity.
Defined.

Lemma info_simulator_reuse_witness :
  exists res1 res2 : error + Info.t,
    TPM_Info env_ok sample_GetEncodings sample_GetNameByASCII info_ok ctx_plain
      (mkWorld tpm_sim [])
    = (Returns res1,
       mkWorld (set_rwc (Some (RwcSimulator 5)) (set_attestTPM (Some 2%nat) tpm_sim))
         [EvLock; EvStoreLoad BlackHole; EvAttestOpenTPM (simulator_config 5);
          EvUnlock])
    /\ info_answer (inr sample_info) res1
    /\ TPM_Info env_ok sample_GetEncodings sample_GetNameByASCII info_ok ctx_plain
         (mkWorld (set_rwc (Some (RwcSimulator 5)) (set_attestTPM (Some 2%nat) tpm_sim))
            [EvLock; EvStoreLoad BlackHole; EvAttestOpenTPM (simulator_config 5);
             EvUnlock])
       = (Returns res2,
          mkWorld (set_rwc (Some (RwcSimulator 5)) (set_attestTPM (Some 2%nat) tpm_sim))
            [EvLock; EvStoreLoad BlackHole; EvAttestOpenTPM (simulator_config 5);
             EvUnlock; EvLock; EvStoreLoad BlackHole; EvUnlock])
    /\ info_answer (inr sample_info) res2.
Proof.
  apply (info_simulator_reuse env_ok sample_GetEncodings sample_GetNameByASCII
           info_ok ctx_plain ctx_plain tpm_sim [] BlackHole 5%nat 2%nat);
    reflexivity.
Defined.

(** ** Certificates *)

Lemma ObjectIdentifier_Equal_spec (oi other : ObjectIdentifier) :
  ObjectIdentifier_Equal oi other = true <-> oi = other.
Proof.
  unfold ObjectIdentifier_Equal. revert other.
  induction oi as [| a oi IH]; intros [| b other]; cbn; try easy.
  specialize (IH other).
  destruct (List.length oi =? List.length other)%nat; cbn in *.
  - destruct (Z.eqb_spec a b) as [-> | Hab]; cbn.
    + rewrite IH. split; congruence.
    + split; [discriminate | congruence].
  - split; [discriminate |]. intros [= -> ->].
    destruct IH as [_ IH]. now apply IH.
Qed.

(** X19. [hasExtension] answers true exactly when some extension of the
    certificate has the identifier asked for, integer by integer; on a
    certificate without extensions it answers false. *)
Theorem hasExtension_spec (c : Certificate) (oid : ObjectIdentifier) :
  hasExtension c oid = true
  <-> exists e : Extension.t, In e (Extensions c) /\ Extension.ID e = oid.
Proof.
  unfold hasExtension. induction (Extensions c) as [| e es IH]; cbn.
  - split; [discriminate | intros (e & [] & _)].
  - destruct (ObjectIdentifier_Equal (Extension.ID e) oid) eqn:Heq.
    + apply ObjectIdentifier_Equal_spec in Heq. split; [| reflexivity].
      intros _. exists e. auto.
    + rewrite IH. split.
      * intros (e' & Hin & Hid). exists e'. auto.
      * intros (e' & [<- | Hin] & Hid).
        -- apply ObjectIdentifier_Equal_spec in Hid. congruence.
        -- exists e'. auto.
Qed.

(** X20. [hasExtendedSANs] answers true exactly when some SAN of the
    certificate has a type that is none of DNS, IP, URI, auto, email and the
    empty string; in particular it answers false without SANs, and adding
    SANs never turns true into false. *)
Theorem hasExtendedSANs_spec (DNSType IPType URIType AutoType EmailType : string)
    (c : Certificate) :
  (hasExtendedSANs DNSType IPType URIType AutoType EmailType c = true
   <-> exists san : SubjectAlternativeName.t,
         In san (SANs c)
         /\ ~ In (SubjectAlternativeName.Type_ san)
                 [DNSType; IPType; URIType; AutoType; EmailType; ""])
  /\ (forall more : list SubjectAlternativeName.t,
        hasExtendedSANs DNSType IPType URIType AutoType EmailType c = true ->
        hasExtendedSANs DNSType IPType URIType AutoType EmailType
          (mkCertificate (SANs c ++ more) (Extensions c)) = true).
Proof.
  assert (Hplain : forall san,
    plain_SAN DNSType IPType URIType AutoType EmailType san = true
    <-> In (SubjectAlternativeName.Type_ san)
           [DNSType; IPType; URIType; AutoType; EmailType; ""]).
  { intros san. unfold plain_SAN. cbn [In].
    rewrite !orb_true_iff, !String.eqb_eq. intuition congruence. }
  assert (Hloop : forall sans,
    hasExtendedSANs_loop DNSType IPType URIType AutoType EmailType sans = true
    <-> exists san, In san sans
          /\ ~ In (SubjectAlternativeName.Type_ san)
                  [DNSType; IPType; URIType; AutoType; EmailType; ""]).
  { induction sans as [| san sans IH]; cbn [hasExtendedSANs_loop].
    - split; [discriminate | intros (san & [] & _)].
    - destruct (plain_SAN DNSType IPType URIType AutoType EmailType san) eqn:Hp;
        cbn [negb].
      + rewrite IH. apply Hplain in Hp. split.
        * intros (s & Hin & Hn). exists s. split; [now right | exact Hn].
        * intros (s & [<- | Hin] & Hn); [contradiction | exists s; auto].
      + split; [| reflexivity]. intros _. exists san. split; [now left |].
        intros Hin. apply Hplain in Hin. congruence. }
  unfold hasExtendedSANs. split.
  - apply Hloop.
  - intros more. cbn [SANs]. rewrite !Hloop. intros (san & Hin & Hn).
    exists san. split; [apply in_or_app; now left | exact Hn].
Qed.
